(** * The login router of node-clean-api

    A shallow embedding of [LoginRouter.route]
    (presentation/routers/login-router.js) and of the [HttpResponse] helper
    (presentation/helpers/http-response.js) it calls, with the fragment of
    JavaScript the two files rely on: property reads, [typeof], truthiness,
    exceptions with [try]/[catch], and [await]. *)

From Stdlib Require Import ZArith String List Bool.
Import ListNotations.
Local Open Scope string_scope.
Local Open Scope Z_scope.
Local Set Warnings "-register-all".

(** ** JavaScript values *)

(** The classes of error objects that occur: the four of the presentation
    layer, the [TypeError] the runtime raises, and the plain [Error] the
    collaborators of the test-suite throw. *)
Inductive error_class : Type :=
| MissingParamError
| InvalidParamError
| UnauthorizedError
| ServerError
| TypeError
| PlainError.

(** How a promise has settled. *)
Inductive settlement (V : Type) : Type :=
| Fulfilled (v : V)
| Rejected (reason : V).
Arguments Fulfilled {V} v.
Arguments Rejected {V} reason.

(** Numbers are the integer-valued ones plus [NaN]; only their truthiness
    is ever inspected.  An object is the list of its own properties, in
    insertion order.  The router only calls the methods of its two
    collaborators, which are modelled below; of any other function value the
    one thing that can come to matter is what it does when [await] calls it
    as the [then] method of an object, [then(resolve, reject)]: it calls
    [resolve(v)] ([Fulfilled v]), or it calls [reject(e)] or throws [e]
    ([Rejected e]).  Symbols and big integers are left out. *)
Inductive value : Type :=
| VUndefined
| VNull
| VBoolean (b : bool)
| VNaN
| VNumber (z : Z)
| VString (s : string)
| VFunction (name : string) (as_then : settlement value)
| VObject (props : list (string * value))
| VArray (elems : list value)
| VError (cls : error_class) (param : value)
| VPromise (p : settlement value).

(** The result of evaluating an expression or a function body: a value, or
    an exception on its way to the nearest [catch]. *)
Inductive completion (A : Type) : Type :=
| Normal (a : A)
| Throw (e : value).
Arguments Normal {A} a.
Arguments Throw {A} e.

(** [typeof v] *)
Definition typeof (v : value) : string :=
  match v with
  | VUndefined => "undefined"
  | VBoolean _ => "boolean"
  | VNaN | VNumber _ => "number"
  | VString _ => "string"
  | VFunction _ _ => "function"
  | VNull | VObject _ | VArray _ | VError _ _ | VPromise _ => "object"
  end.

(** [!!v]: the values [undefined], [null], [false], [0], [NaN] and the empty
    string are falsy, every other value is truthy. *)
Definition truthy (v : value) : bool :=
  match v with
  | VUndefined | VNull | VNaN => false
  | VBoolean b => b
  | VNumber z => negb (z =? 0)
  | VString s => negb (s =? "")%string
  | VFunction _ _ | VObject _ | VArray _ | VError _ _ | VPromise _ => true
  end.

(** The own property [k] of an object, [undefined] when there is none. *)
Fixpoint lookup (k : string) (props : list (string * value)) : value :=
  match props with
  | [] => VUndefined
  | (k', v) :: rest => if (k =? k')%string then v else lookup k rest
  end.

(** The property read [v.k], for the keys the router reads ([body], [email],
    [password]), which no built-in prototype defines: reading a property of
    [undefined] or [null] raises a [TypeError]; an object yields its own
    property; every other value yields [undefined].  Destructuring
    [const { k } = v] reads [v.k] in the same way. *)
Definition get (v : value) (k : string) : completion value :=
  match v with
  | VUndefined | VNull => Throw (VError TypeError VUndefined)
  | VObject props => Normal (lookup k props)
  | _ => Normal VUndefined
  end.

(** [await v]: a fulfilled promise gives its value, a rejected one throws
    its reason.  An object whose property [then] is a function (a thenable)
    is adopted: its [then] is called, and what that resolves with is awaited
    in turn, what it rejects with is thrown.  Every other value is its own
    result.  (Promises that never settle, and [then] methods that call
    neither of their arguments, are outside the model.)  The inner loop is
    [lookup "then" props], see [await_object] below. *)
Fixpoint await (v : value) : completion value :=
  match v with
  | VPromise (Fulfilled x) => await x
  | VPromise (Rejected e) => Throw e
  | VObject props =>
      (fix adopt (l : list (string * value)) : completion value :=
         match l with
         | [] => Normal v
         | (k, x) :: rest =>
             if ("then" =? k)%string then
               match x with
               | VFunction _ (Fulfilled y) => await y
               | VFunction _ (Rejected e) => Throw e
               | _ => Normal v
               end
             else adopt rest
         end) props
  | _ => Normal v
  end.

(** A value that [await] does not return as it is: a promise or a
    thenable. *)
Definition thenable (v : value) : bool :=
  match v with
  | VPromise _ => true
  | VObject props =>
      match lookup "then" props with
      | VFunction _ _ => true
      | _ => false
      end
  | _ => false
  end.

(** ** Error objects *)

(** Modelled from the spec: the error classes [MissingParamError],
    [InvalidParamError], [UnauthorizedError] and [ServerError], whose files
    are not part of the sources: "a closed set of typed error values, each
    carrying an optional field name".  [new cls param] is [new Cls(param)],
    and [new cls VUndefined] is [new Cls()]. *)
Definition new (cls : error_class) (param : value) : value :=
  VError cls param.

(** The class of an error object (its [name]) and what it carries. *)
Definition error_name (v : value) : option error_class :=
  match v with
  | VError cls _ => Some cls
  | _ => None
  end.

Definition error_param (v : value) : option value :=
  match v with
  | VError _ param => Some param
  | _ => None
  end.

(** ** The response helper *)

(** A response: [{ statusCode, body }], the [body] key being optional. *)
Record httpResponse : Type := mkResponse {
  statusCode : Z;
  body : option value
}.

Module HttpResponse.

(** [static badRequest (message)] *)
Definition badRequest (message : value) : httpResponse :=
  {| statusCode := 400;
     body := Some (new MissingParamError message) |}.

(** [static serverError ()] *)
Definition serverError : httpResponse :=
  {| statusCode := 500;
     body := Some (new ServerError VUndefined) |}.

(** [static unauthorizedError ()] *)
Definition unauthorizedError : httpResponse :=
  {| statusCode := 401;
     body := Some (new UnauthorizedError VUndefined) |}.

(** [static success ()]: the method declares no parameter, so whatever a
    caller passes ([arguments]) is not looked at. *)
Definition success (arguments : list value) : httpResponse :=
  {| statusCode := 200;
     body := None |}.

End HttpResponse.

(** ** Collaborators *)

(** What the property holding a collaborator's method contains. *)
Inductive method (F : Type) : Type :=
| NoMethod                    (* the property is absent *)
| NotCallable (v : value)     (* the property holds a value that is no function *)
| Method (f : F).             (* the property holds a function *)
Arguments NoMethod {F}.
Arguments NotCallable {F} v.
Arguments Method {F} f.

(** What a field of the router holds: nothing (the constructor argument was
    left out), [null], or an object with or without the method. *)
Inductive collaborator (F : Type) : Type :=
| Missing
| NullRef
| Instance (m : method F).
Arguments Missing {F}.
Arguments NullRef {F}.
Arguments Instance {F} m.

(** The implementations of [isValid (email)] and [auth (email, password)]:
    deterministic functions that return a value (possibly a promise) or
    throw. *)
Definition isValid_fn : Type := value -> completion value.
Definition auth_fn : Type := value -> value -> completion value.

(** [c.m(args)], [apply] supplying the arguments: a [TypeError] when [c] is
    [undefined] or [null] (property read) or when [c.m] is not a function
    (call). *)
Definition invoke {F : Type} (c : collaborator F)
    (apply : F -> completion value) : completion value :=
  match c with
  | Missing | NullRef => Throw (VError TypeError VUndefined)
  | Instance NoMethod | Instance (NotCallable _) =>
      Throw (VError TypeError VUndefined)
  | Instance (Method f) => apply f
  end.

(** Whether the call reaches a function. *)
Definition callable {F : Type} (c : collaborator F) : bool :=
  match c with
  | Instance (Method _) => true
  | _ => false
  end.

(** ** The router *)

(** [class LoginRouter]: its two fields. *)
Record LoginRouter : Type := mkLoginRouter {
  authUseCase : collaborator auth_fn;
  emailValidator : collaborator isValid_fn
}.

(** [constructor (authUseCase, emailValidator)] *)
Definition constructor (authUseCase : collaborator auth_fn)
    (emailValidator : collaborator isValid_fn) : LoginRouter :=
  {| authUseCase := authUseCase; emailValidator := emailValidator |}.

(** The calls a run makes on the collaborators, with their arguments. *)
Inductive call : Type :=
| IsValidCall (email : value)
| AuthCall (email password : value).

(** The state a method body runs in: the instance ([this]) and the calls
    made so far. *)
Record world : Type := mkWorld {
  this : LoginRouter;
  calls : list call
}.

(** Method bodies: state passing with exceptions. *)
Definition exec (A : Type) : Type := world -> completion A * world.

Definition ret {A : Type} (a : A) : exec A :=
  fun w => (Normal a, w).

Definition bind {A B : Type} (m : exec A) (k : A -> exec B) : exec B :=
  fun w =>
    match m w with
    | (Normal a, w') => k a w'
    | (Throw e, w') => (Throw e, w')
    end.

Definition lift {A : Type} (c : completion A) : exec A :=
  fun w => (c, w).

Definition try_catch {A : Type} (m : exec A) (handler : value -> exec A)
  : exec A :=
  fun w =>
    match m w with
    | (Normal a, w') => (Normal a, w')
    | (Throw e, w') => handler e w'
    end.

Definition read_this : exec LoginRouter :=
  fun w => (Normal (this w), w).

Definition record_call (c : call) : exec unit :=
  fun w => (Normal tt, {| this := this w; calls := calls w ++ [c] |}).

Notation "x <- m ;; k" := (bind m (fun x => k))
  (at level 61, m at next level, right associativity).
Notation "m ;;; k" := (bind m (fun _ => k))
  (at level 61, right associativity).

(** A method call on a collaborator: it is recorded when it reaches a
    function. *)
Definition call_method {F : Type} (c : collaborator F) (ev : call)
    (apply : F -> completion value) : exec value :=
  (if callable c then record_call ev else ret tt) ;;;
  lift (invoke c apply).

(** The [try] block of [route]. *)
Definition route_try (httpRequest : value) : exec httpResponse :=
  b <- lift (get httpRequest "body") ;;
  if negb (typeof b =? "object")%string then
    ret HttpResponse.serverError
  else
    email <- lift (get b "email") ;;
    password <- lift (get b "password") ;;
    if negb (truthy email) then
      ret (HttpResponse.badRequest (new MissingParamError (VString "email")))
    else
      sut <- read_this ;;
      valid <- call_method (emailValidator sut) (IsValidCall email)
                 (fun isValid => isValid email) ;;
      if negb (truthy valid) then
        ret (HttpResponse.badRequest (new InvalidParamError (VString "email")))
      else if negb (truthy password) then
        ret (HttpResponse.badRequest
               (new MissingParamError (VString "password")))
      else
        promise <- call_method (authUseCase sut) (AuthCall email password)
                     (fun auth => auth email password) ;;
        accessToken <- lift (await promise) ;;
        if negb (truthy accessToken) then
          ret HttpResponse.unauthorizedError
        else
          ret (HttpResponse.success [VObject [("accessToken", accessToken)]]).

(** [async route (httpRequest)]: the promise it returns is fulfilled with
    the value of a [Normal] completion and would be rejected with the
    exception of a [Throw]. *)
Definition route (httpRequest : value) : exec httpResponse :=
  try_catch (route_try httpRequest)
            (fun error => ret HttpResponse.serverError).

(** [await sut.route(httpRequest)] on a fresh router, as the tests do. *)
Definition respond (sut : LoginRouter) (httpRequest : value)
  : completion httpResponse :=
  fst (route httpRequest {| this := sut; calls := [] |}).

(** The calls that run made. *)
Definition trace (sut : LoginRouter) (httpRequest : value) : list call :=
  calls (snd (route httpRequest {| this := sut; calls := [] |})).


(** What [await this.authUseCase.auth(email, password)] evaluates to. *)
Definition awaited_auth (sut : LoginRouter) (email password : value)
  : completion value :=
  match invoke (authUseCase sut) (fun auth => auth email password) with
  | Normal promise => await promise
  | Throw e => Throw e
  end.

(** ** Vocabulary of the specification *)

(** A value that is an object other than [null] (arrays, error objects and
    promises are objects too). *)
Definition is_object (v : value) : bool :=
  match v with
  | VObject _ | VArray _ | VError _ _ | VPromise _ => true
  | _ => false
  end.

(** The request carries no object as its body: the request itself is absent
    ([undefined] or [null]), or its [body] is absent, a primitive, a function
    or [null]. *)
Definition lacks_object_body (httpRequest : value) : bool :=
  match get httpRequest "body" with
  | Throw _ => true
  | Normal b => negb (is_object b)
  end.

(** The class of the error object a response carries as its body. *)
Definition body_error_name (r : httpResponse) : option error_class :=
  match body r with
  | Some v => error_name v
  | None => None
  end.

(** What the error object in a response's body carries. *)
Definition body_error_param (r : httpResponse) : option value :=
  match body r with
  | Some v => error_param v
  | None => None
  end.

(** The faults of the email validator that the call [isValid(email)] can
    meet. *)
Inductive validator_fault (email : value) : collaborator isValid_fn -> Prop :=
| validator_absent : validator_fault email Missing
| validator_null : validator_fault email NullRef
| validator_lacks_isValid : validator_fault email (Instance NoMethod)
| validator_isValid_not_callable (v : value) :
    validator_fault email (Instance (NotCallable v))
| validator_raises (isValid : isValid_fn) (e : value) :
    isValid email = Throw e ->
    validator_fault email (Instance (Method isValid)).

(** The faults of the authentication use case that the awaited call
    [auth(email, password)] can meet. *)
Inductive auth_fault (email password : value) : collaborator auth_fn -> Prop :=
| auth_absent : auth_fault email password Missing
| auth_null : auth_fault email password NullRef
| auth_lacks_auth : auth_fault email password (Instance NoMethod)
| auth_not_callable (v : value) :
    auth_fault email password (Instance (NotCallable v))
| auth_raises (auth : auth_fn) (e : value) :
    auth email password = Throw e ->
    auth_fault email password (Instance (Method auth))
| auth_rejects (auth : auth_fn) (promise e : value) :
    auth email password = Normal promise ->
    await promise = Throw e ->
    auth_fault email password (Instance (Method auth)).

(** ** The scenarios of the test-suite (login-router.spec.js) *)

Module Fixtures.

(** [makeAuthUseCase]: an asynchronous [auth] that resolves to the
    configured [accessToken]. *)
Definition makeAuthUseCase (accessToken : value) : collaborator auth_fn :=
  Instance (Method (fun _ _ => Normal (VPromise (Fulfilled accessToken)))).

(** [makeAuthUseCaseWithError]: [auth] throws. *)
Definition makeAuthUseCaseWithError : collaborator auth_fn :=
  Instance (Method (fun _ _ => Throw (VError PlainError VUndefined))).

(** [makeEmailValidator]: [isValid] returns the configured
    [isEmailValid]. *)
Definition makeEmailValidator (isEmailValid : value)
  : collaborator isValid_fn :=
  Instance (Method (fun _ => Normal isEmailValid)).

(** [makeEmailValidatorWithError]: [isValid] throws. *)
Definition makeEmailValidatorWithError : collaborator isValid_fn :=
  Instance (Method (fun _ => Throw (VError PlainError VUndefined))).

(** An [isValid] declared [async]: it returns a promise of its verdict. *)
Definition makeAsyncEmailValidator (s : settlement value)
  : collaborator isValid_fn :=
  Instance (Method (fun _ => Normal (VPromise s))).

(** [makeSut] *)
Definition makeSut : LoginRouter :=
  constructor (makeAuthUseCase (VString "any_token"))
              (makeEmailValidator (VBoolean true)).

(** [{ body: { email, password } }] *)
Definition credentials (email password : value) : value :=
  VObject [("body", VObject [("email", email); ("password", password)])].

End Fixtures.

Import Fixtures.

(** ** The other revisions of the router *)

(** [{ ...r, body: b }]: the properties of [r], then the key [body]. *)
Definition with_body (r : httpResponse) (b : value) : httpResponse :=
  {| statusCode := statusCode r; body := Some b |}.

(** The revision without email validator (the second [LoginRouter] of the
    router's file): its constructor takes the authentication use case only,
    it hands [badRequest] the name of the field, and it adds the body of the
    successful response itself.  It runs on the same instance record, of
    which it reads the field [authUseCase] only. *)
Module NoValidator.

(** The [try] block of [route]. *)
Definition route_try (httpRequest : value) : exec httpResponse :=
  b <- lift (get httpRequest "body") ;;
  if negb (typeof b =? "object")%string then
    ret HttpResponse.serverError
  else
    email <- lift (get b "email") ;;
    password <- lift (get b "password") ;;
    if negb (truthy email) then
      ret (HttpResponse.badRequest (VString "email"))
    else if negb (truthy password) then
      ret (HttpResponse.badRequest (VString "password"))
    else
      sut <- read_this ;;
      promise <- call_method (authUseCase sut) (AuthCall email password)
                   (fun auth => auth email password) ;;
      accessToken <- lift (await promise) ;;
      if negb (truthy accessToken) then
        ret HttpResponse.unauthorizedError
      else
        ret (with_body (HttpResponse.success [])
                       (VObject [("accessToken", accessToken)])).

(** [async route (httpRequest)] *)
Definition route (httpRequest : value) : exec httpResponse :=
  try_catch (route_try httpRequest)
            (fun error => ret HttpResponse.serverError).

Definition respond (sut : LoginRouter) (httpRequest : value)
  : completion httpResponse :=
  fst (route httpRequest {| this := sut; calls := [] |}).

Definition trace (sut : LoginRouter) (httpRequest : value) : list call :=
  calls (snd (route httpRequest {| this := sut; calls := [] |})).

End NoValidator.

(** The synchronous revision (the first [LoginRouter] of
    presentation/routers/login-router.js): [route] is not [async] and uses
    what [auth] returns without awaiting it. *)
Module Synchronous.

(** The [try] block of [route]. *)
Definition route_try (httpRequest : value) : exec httpResponse :=
  b <- lift (get httpRequest "body") ;;
  if negb (typeof b =? "object")%string then
    ret HttpResponse.serverError
  else
    email <- lift (get b "email") ;;
    password <- lift (get b "password") ;;
    if negb (truthy email) then
      ret (HttpResponse.badRequest (VString "email"))
    else if negb (truthy password) then
      ret (HttpResponse.badRequest (VString "password"))
    else
      sut <- read_this ;;
      accessToken <- call_method (authUseCase sut) (AuthCall email password)
                       (fun auth => auth email password) ;;
      if negb (truthy accessToken) then
        ret HttpResponse.unauthorizedError
      else
        ret (with_body (HttpResponse.success [])
                       (VObject [("accessToken", accessToken)])).

(** [route (httpRequest)] *)
Definition route (httpRequest : value) : exec httpResponse :=
  try_catch (route_try httpRequest)
            (fun error => ret HttpResponse.serverError).

Definition respond (sut : LoginRouter) (httpRequest : value)
  : completion httpResponse :=
  fst (route httpRequest {| this := sut; calls := [] |}).

Definition trace (sut : LoginRouter) (httpRequest : value) : list call :=
  calls (snd (route httpRequest {| this := sut; calls := [] |})).

End Synchronous.

(** The intermediate revision (the second [LoginRouter] of
    presentation/routers/login-router.js): asynchronous and without
    validator like the one above, but it hands [badRequest] an error object
    instead of the name of the field. *)
Module Intermediate.

(** The [try] block of [route]. *)
Definition route_try (httpRequest : value) : exec httpResponse :=
  b <- lift (get httpRequest "body") ;;
  if negb (typeof b =? "object")%string then
    ret HttpResponse.serverError
  else
    email <- lift (get b "email") ;;
    password <- lift (get b "password") ;;
    if negb (truthy email) then
      ret (HttpResponse.badRequest (new MissingParamError (VString "email")))
    else if negb (truthy password) then
      ret (HttpResponse.badRequest
             (new MissingParamError (VString "password")))
    else
      sut <- read_this ;;
      promise <- call_method (authUseCase sut) (AuthCall email password)
                   (fun auth => auth email password) ;;
      accessToken <- lift (await promise) ;;
      if negb (truthy accessToken) then
        ret HttpResponse.unauthorizedError
      else
        ret (with_body (HttpResponse.success [])
                       (VObject [("accessToken", accessToken)])).

(** [async route (httpRequest)] *)
Definition route (httpRequest : value) : exec httpResponse :=
  try_catch (route_try httpRequest)
            (fun error => ret HttpResponse.serverError).

Definition respond (sut : LoginRouter) (httpRequest : value)
  : completion httpResponse :=
  fst (route httpRequest {| this := sut; calls := [] |}).

Definition trace (sut : LoginRouter) (httpRequest : value) : list call :=
  calls (snd (route httpRequest {| this := sut; calls := [] |})).

End Intermediate.

(** ** The authentication use case of the domain layer *)

(** [class AuthUseCase]: its [async auth (email, password)] throws when
    [!email || password] and otherwise falls off its end; being [async], it
    returns a promise, rejected in the first case and fulfilled with
    [undefined] in the second. *)
Module AuthUseCase.

Definition auth (email password : value) : completion value :=
  Normal (VPromise
            (if negb (truthy email) || truthy password
             then Rejected (VError PlainError VUndefined)
             else Fulfilled VUndefined)).

(** [new AuthUseCase()] as a collaborator of the router. *)
Definition instance : collaborator auth_fn :=
  Instance (Method auth).

End AuthUseCase.

(** ** Vocabulary for whole runs *)

(** The status of the response a call resolved to. *)
Definition status_of (c : completion httpResponse) : option Z :=
  match c with
  | Normal r => Some (statusCode r)
  | Throw _ => None
  end.

(** The value of the property [k] of an object that is not [null]. *)
Definition member (b : value) (k : string) : value :=
  match b with
  | VObject props => lookup k props
  | _ => VUndefined
  end.

(** The ways in which a run of the current [route] ends once the body [b]
    has passed the shape test, each with the response and the calls made. *)
Inductive ending (sut : LoginRouter) (b : value)
  : httpResponse -> list call -> Prop :=
| email_missing :
    truthy (member b "email") = false ->
    ending sut b
      (HttpResponse.badRequest (new MissingParamError (VString "email"))) []
| validator_unusable :
    truthy (member b "email") = true ->
    callable (emailValidator sut) = false ->
    ending sut b HttpResponse.serverError []
| validator_throws (isValid : isValid_fn) (e : value) :
    truthy (member b "email") = true ->
    emailValidator sut = Instance (Method isValid) ->
    isValid (member b "email") = Throw e ->
    ending sut b HttpResponse.serverError [IsValidCall (member b "email")]
| email_invalid (isValid : isValid_fn) (valid : value) :
    truthy (member b "email") = true ->
    emailValidator sut = Instance (Method isValid) ->
    isValid (member b "email") = Normal valid ->
    truthy valid = false ->
    ending sut b
      (HttpResponse.badRequest (new InvalidParamError (VString "email")))
      [IsValidCall (member b "email")]
| password_missing (isValid : isValid_fn) (valid : value) :
    truthy (member b "email") = true ->
    emailValidator sut = Instance (Method isValid) ->
    isValid (member b "email") = Normal valid ->
    truthy valid = true ->
    truthy (member b "password") = false ->
    ending sut b
      (HttpResponse.badRequest (new MissingParamError (VString "password")))
      [IsValidCall (member b "email")]
| auth_unusable (isValid : isValid_fn) (valid : value) :
    truthy (member b "email") = true ->
    emailValidator sut = Instance (Method isValid) ->
    isValid (member b "email") = Normal valid ->
    truthy valid = true ->
    truthy (member b "password") = true ->
    callable (authUseCase sut) = false ->
    ending sut b HttpResponse.serverError [IsValidCall (member b "email")]
| auth_fails (isValid : isValid_fn) (valid : value) (auth : auth_fn)
    (e : value) :
    truthy (member b "email") = true ->
    emailValidator sut = Instance (Method isValid) ->
    isValid (member b "email") = Normal valid ->
    truthy valid = true ->
    truthy (member b "password") = true ->
    authUseCase sut = Instance (Method auth) ->
    awaited_auth sut (member b "email") (member b "password") = Throw e ->
    ending sut b HttpResponse.serverError
      [IsValidCall (member b "email");
       AuthCall (member b "email") (member b "password")]
| token_falsy (isValid : isValid_fn) (valid : value) (auth : auth_fn)
    (accessToken : value) :
    truthy (member b "email") = true ->
    emailValidator sut = Instance (Method isValid) ->
    isValid (member b "email") = Normal valid ->
    truthy valid = true ->
    truthy (member b "password") = true ->
    authUseCase sut = Instance (Method auth) ->
    awaited_auth sut (member b "email") (member b "password")
    = Normal accessToken ->
    truthy accessToken = false ->
    ending sut b HttpResponse.unauthorizedError
      [IsValidCall (member b "email");
       AuthCall (member b "email") (member b "password")]
| token_truthy (isValid : isValid_fn) (valid : value) (auth : auth_fn)
    (accessToken : value) :
    truthy (member b "email") = true ->
    emailValidator sut = Instance (Method isValid) ->
    isValid (member b "email") = Normal valid ->
    truthy valid = true ->
    truthy (member b "password") = true ->
    authUseCase sut = Instance (Method auth) ->
    awaited_auth sut (member b "email") (member b "password")
    = Normal accessToken ->
    truthy accessToken = true ->
    ending sut b
      (HttpResponse.success [VObject [("accessToken", accessToken)]])
      [IsValidCall (member b "email");
       AuthCall (member b "email") (member b "password")].

(** ** Stepping through [route] *)

(** Unfolds the monad, so that a run of [route] becomes nested case
    analyses on the values it inspects. *)
Ltac unfold_route :=
  unfold respond, trace, route, route_try, try_catch, bind, lift, ret,
    read_this, call_method, record_call.

(** The same for the other revisions. *)
Ltac unfold_route_nv :=
  unfold NoValidator.respond, NoValidator.trace, NoValidator.route,
    NoValidator.route_try, try_catch, bind, lift, ret, read_this,
    call_method, record_call.

Ltac unfold_route_sync :=
  unfold Synchronous.respond, Synchronous.trace, Synchronous.route,
    Synchronous.route_try, try_catch, bind, lift, ret, read_this,
    call_method, record_call.

Ltac unfold_route_mid :=
  unfold Intermediate.respond, Intermediate.trace, Intermediate.route,
    Intermediate.route_try, try_catch, bind, lift, ret, read_this,
    call_method, record_call.

(** ** The test-suite, replayed *)
Example no_email_is_provided :
  option_map statusCode
    (match respond makeSut
             (VObject [("body", VObject [("password", VString "any_password")])])
     with Normal r => Some r | Throw _ => None end) = Some 400.
Proof. reflexivity. Qed.

Example no_password_is_provided :
  respond makeSut (VObject [("body", VObject [("email", VString "any_email@eu.com")])])
  = Normal (HttpResponse.badRequest (new MissingParamError (VString "password"))).
Proof. reflexivity. Qed.

Example no_httpRequest_is_provided :
  respond makeSut VUndefined = Normal HttpResponse.serverError.
Proof. reflexivity. Qed.

Example httpRequest_has_no_body :
  respond makeSut (VObject []) = Normal HttpResponse.serverError.
Proof. reflexivity. Qed.

Example httpRequest_body_is_not_object :
  respond makeSut (VObject [("body", VString "string test")])
  = Normal HttpResponse.serverError.
Proof. reflexivity. Qed.

Example calls_collaborators_with_correct_params :
  trace makeSut (credentials (VString "any_email@email.com") (VString "123456"))
  = [IsValidCall (VString "any_email@email.com");
     AuthCall (VString "any_email@email.com") (VString "123456")].
Proof. reflexivity. Qed.

Example invalid_credentials_are_provided :
  respond (constructor (makeAuthUseCase VNull) (makeEmailValidator (VBoolean true)))
          (credentials (VString "invalid_email@email.com") (VString "invalid_password"))
  = Normal HttpResponse.unauthorizedError.
Proof. reflexivity. Qed.

Example no_AuthUseCase_is_provided :
  respond (constructor Missing Missing)
          (credentials (VString "any_email@email.com") (VString "123456"))
  = Normal HttpResponse.serverError.
Proof. reflexivity. Qed.

Example AuthUseCase_throws :
  respond (constructor makeAuthUseCaseWithError (makeEmailValidator (VBoolean true)))
          (credentials (VString "valid_email@email.com") (VString "valid_password"))
  = Normal HttpResponse.serverError.
Proof. reflexivity. Qed.

Example emailValidator_throws :
  respond (constructor (makeAuthUseCase (VString "any_token")) makeEmailValidatorWithError)
          (credentials (VString "any_email@email.com") (VString "123456"))
  = Normal HttpResponse.serverError.
Proof. reflexivity. Qed.

(** ** The stages of [route] *)

Section Steps.

Variables (httpRequest : value) (w : world).

(** Reading [httpRequest.body] throws: the request is [undefined] or
    [null]. *)
Lemma route_request_fault (e : value) :
  get httpRequest "body" = Throw e ->
  route httpRequest w = (Normal HttpResponse.serverError, w).
Proof. intros H. unfold_route. rewrite H. reflexivity. Qed.

(** The body fails the [typeof] test. *)
Lemma route_body_not_object (b : value) :
  get httpRequest "body" = Normal b ->
  (typeof b =? "object")%string = false ->
  route httpRequest w = (Normal HttpResponse.serverError, w).
Proof. intros H T. unfold_route. rewrite H. cbn. rewrite T. reflexivity. Qed.

(** The body is [null]: it passes the [typeof] test and the destructuring
    throws. *)
Lemma route_body_null :
  get httpRequest "body" = Normal VNull ->
  route httpRequest w = (Normal HttpResponse.serverError, w).
Proof. intros H. unfold_route. rewrite H. reflexivity. Qed.

Variable props : list (string * value).
Hypothesis Hbody : get httpRequest "body" = Normal (VObject props).

(** [if (!email)] *)
Lemma route_email_missing :
  truthy (lookup "email" props) = false ->
  route httpRequest w
  = (Normal (HttpResponse.badRequest (new MissingParamError (VString "email"))),
     w).
Proof.
  intros H. unfold_route. rewrite Hbody. cbn. rewrite H. reflexivity.
Qed.

(** The call of [isValid] throws. *)
Lemma route_validator_fault (e : value) :
  truthy (lookup "email" props) = true ->
  invoke (emailValidator (this w))
         (fun isValid => isValid (lookup "email" props)) = Throw e ->
  fst (route httpRequest w) = Normal HttpResponse.serverError.
Proof.
  intros H V. unfold_route. rewrite Hbody. cbn. rewrite H. cbn.
  destruct (callable (emailValidator (this w))); cbn; rewrite V; reflexivity.
Qed.

(** [if (!this.emailValidator.isValid(email))] *)
Lemma route_email_invalid (valid : value) :
  truthy (lookup "email" props) = true ->
  invoke (emailValidator (this w))
         (fun isValid => isValid (lookup "email" props)) = Normal valid ->
  truthy valid = false ->
  fst (route httpRequest w)
  = Normal (HttpResponse.badRequest (new InvalidParamError (VString "email"))).
Proof.
  intros H V F. unfold_route. rewrite Hbody. cbn. rewrite H. cbn.
  destruct (callable (emailValidator (this w))); cbn; rewrite V; cbn;
    rewrite F; reflexivity.
Qed.

(** [if (!password)] *)
Lemma route_password_missing (valid : value) :
  truthy (lookup "email" props) = true ->
  invoke (emailValidator (this w))
         (fun isValid => isValid (lookup "email" props)) = Normal valid ->
  truthy valid = true ->
  truthy (lookup "password" props) = false ->
  fst (route httpRequest w)
  = Normal (HttpResponse.badRequest
              (new MissingParamError (VString "password"))).
Proof.
  intros H V T P. unfold_route. rewrite Hbody. cbn. rewrite H. cbn.
  destruct (callable (emailValidator (this w))); cbn; rewrite V; cbn;
    rewrite T, P; reflexivity.
Qed.

(** The last stage: the awaited call of [auth] and the two tests on its
    result. *)
Lemma route_authenticates (valid : value) :
  truthy (lookup "email" props) = true ->
  invoke (emailValidator (this w))
         (fun isValid => isValid (lookup "email" props)) = Normal valid ->
  truthy valid = true ->
  truthy (lookup "password" props) = true ->
  fst (route httpRequest w)
  = Normal
      match awaited_auth (this w) (lookup "email" props)
                         (lookup "password" props) with
      | Throw _ => HttpResponse.serverError
      | Normal accessToken =>
          if truthy accessToken
          then HttpResponse.success [VObject [("accessToken", accessToken)]]
          else HttpResponse.unauthorizedError
      end.
Proof.
  intros H V T P. unfold_route. unfold awaited_auth. rewrite Hbody. cbn.
  rewrite H. cbn.
  destruct (callable (emailValidator (this w))); cbn; rewrite V; cbn;
    rewrite T, P; cbn;
    destruct (callable (authUseCase (this w))); cbn;
    destruct (invoke (authUseCase (this w)) _) as [promise|]; cbn;
    try reflexivity;
    destruct (await promise) as [tok|]; cbn; try reflexivity;
    destruct (truthy tok); reflexivity.
Qed.

End Steps.

(** ** The instance across calls *)

(** [route] never assigns to a field of [this]. *)
Lemma route_keeps_this (httpRequest : value) (w : world) :
  this (snd (route httpRequest w)) = this w.
Proof.
  unfold_route.
  destruct (get httpRequest "body") as [b|]; cbn; [|reflexivity].
  destruct (negb (typeof b =? "object")%string); cbn; [reflexivity|].
  destruct (get b "email") as [email|]; cbn; [|reflexivity].
  destruct (get b "password") as [password|]; cbn; [|reflexivity].
  destruct (negb (truthy email)); cbn; [reflexivity|].
  destruct (callable (emailValidator (this w))); cbn;
    (destruct (invoke (emailValidator (this w)) _) as [valid|]; cbn;
     [|reflexivity]);
    (destruct (negb (truthy valid)); cbn; [reflexivity|]);
    (destruct (negb (truthy password)); cbn; [reflexivity|]);
    destruct (callable (authUseCase (this w))); cbn;
    (destruct (invoke (authUseCase (this w)) _) as [promise|]; cbn;
     [|reflexivity]);
    (destruct (await promise) as [tok|]; cbn; [|reflexivity]);
    destruct (negb (truthy tok)); reflexivity.
Qed.

(** The response depends on the request and on the two fields only, not on
    what was called before. *)
Lemma route_response_of_this (httpRequest : value) (w w' : world) :
  this w = this w' ->
  fst (route httpRequest w) = fst (route httpRequest w').
Proof.
  intros E. unfold_route.
  destruct (get httpRequest "body") as [b|]; cbn; [|reflexivity].
  destruct (negb (typeof b =? "object")%string); cbn; [reflexivity|].
  destruct (get b "email") as [email|]; cbn; [|reflexivity].
  destruct (get b "password") as [password|]; cbn; [|reflexivity].
  destruct (negb (truthy email)); cbn; [reflexivity|].
  rewrite <- E.
  destruct (callable (emailValidator (this w))); cbn;
    (destruct (invoke (emailValidator (this w)) _) as [valid|]; cbn;
     [|reflexivity]);
    (destruct (negb (truthy valid)); cbn; [reflexivity|]);
    (destruct (negb (truthy password)); cbn; [reflexivity|]);
    destruct (callable (authUseCase (this w))); cbn;
    (destruct (invoke (authUseCase (this w)) _) as [promise|]; cbn;
     [|reflexivity]);
    (destruct (await promise) as [tok|]; cbn; [|reflexivity]);
    destruct (negb (truthy tok)); reflexivity.
Qed.

(** The promise [route] returns is always fulfilled. *)
Lemma route_returns (httpRequest : value) (w : world) :
  exists r : httpResponse, fst (route httpRequest w) = Normal r.
Proof.
  unfold route, try_catch.
  destruct (route_try httpRequest w) as [[r|e] w']; cbn; eauto.
Qed.

(** ** The response helper on its own *)

(** Every body [badRequest] builds is a [MissingParamError], whatever it is
    given. *)
Lemma badRequest_error_name (message : value) :
  body_error_name (HttpResponse.badRequest message) = Some MissingParamError.
Proof. reflexivity. Qed.

(** What it is given is what that error carries. *)
Lemma badRequest_error_param (message : value) :
  body_error_param (HttpResponse.badRequest message) = Some message.
Proof. reflexivity. Qed.

(** Hence different arguments give different responses. *)
Lemma badRequest_injective (m1 m2 : value) :
  HttpResponse.badRequest m1 = HttpResponse.badRequest m2 -> m1 = m2.
Proof. intros H. injection H. trivial. Qed.

(** [success] answers 200 without a body, whatever it is given. *)
Lemma success_has_no_body (arguments : list value) :
  HttpResponse.success arguments = {| statusCode := 200; body := None |}.
Proof. reflexivity. Qed.

(** ** The successful login *)

(** For every request with truthy email and password, a validator whose
    verdict is truthy and an authentication that yields a truthy token,
    [route] answers 200, and the answer has no body. *)
Lemma route_success (sut : LoginRouter) (httpRequest : value)
    (props : list (string * value)) (valid accessToken : value) :
  get httpRequest "body" = Normal (VObject props) ->
  truthy (lookup "email" props) = true ->
  truthy (lookup "password" props) = true ->
  invoke (emailValidator sut)
         (fun isValid => isValid (lookup "email" props)) = Normal valid ->
  truthy valid = true ->
  awaited_auth sut (lookup "email" props) (lookup "password" props)
  = Normal accessToken ->
  truthy accessToken = true ->
  respond sut httpRequest = Normal {| statusCode := 200; body := None |}.
Proof.
  intros Hbody He Hp Hv Ht Ha Hk. unfold respond.
  rewrite (route_authenticates httpRequest {| this := sut; calls := [] |} props
             Hbody valid He Hv Ht Hp).
  cbn [this]. rewrite Ha, Hk. reflexivity.
Qed.

(** C1, on the code: with body [{ email: "a@b.com", password: "p" }], a
    validator that accepts and an authentication that resolves to "tok123",
    [route] answers [{ statusCode: 200 }]: the status is the one claimed, but
    the response has no body, because [HttpResponse.success] ignores the
    [{ accessToken }] that [route] hands it. *)
Theorem C1_success_response_lacks_access_token :
  respond (constructor (makeAuthUseCase (VString "tok123"))
                       (makeEmailValidator (VBoolean true)))
          (credentials (VString "a@b.com") (VString "p"))
  = Normal {| statusCode := 200; body := None |}
  /\ Normal {| statusCode := 200;
               body := Some (VObject [("accessToken", VString "tok123")]) |}
     <> respond (constructor (makeAuthUseCase (VString "tok123"))
                             (makeEmailValidator (VBoolean true)))
                (credentials (VString "a@b.com") (VString "p")).
Proof. split; [reflexivity | discriminate]. Qed.

(** ** The two kinds of field error *)

(** C2, on the code: for the invalid-email outcome, [badRequest] is handed
    [new InvalidParamError('email')] and answers with a body that is a
    [MissingParamError] wrapped around that object, so the body's error kind
    is "missing", not "invalid", and what it carries is an error object, not
    the field name.  This is the response [route] gives when the validator
    rejects the email. *)
Theorem C2_invalid_email_body_is_a_missing_param_error :
  HttpResponse.badRequest (new InvalidParamError (VString "email"))
  = {| statusCode := 400;
       body := Some (VError MissingParamError
                       (VError InvalidParamError (VString "email"))) |}
  /\ body_error_name
       (HttpResponse.badRequest (new InvalidParamError (VString "email")))
     = Some MissingParamError
  /\ body_error_param
       (HttpResponse.badRequest (new InvalidParamError (VString "email")))
     <> Some (VString "email")
  /\ respond (constructor (makeAuthUseCase (VString "any_token"))
                          (makeEmailValidator (VBoolean false)))
             (credentials (VString "any_email@eu.com")
                          (VString "any_password"))
     = Normal (HttpResponse.badRequest
                 (new InvalidParamError (VString "email"))).
Proof. repeat split; try reflexivity. discriminate. Qed.

(** ** Requests without an object as body *)

(** A value that is no object either fails the [typeof] test or is [null]. *)
Lemma not_object_cases (b : value) :
  is_object b = false ->
  (typeof b =? "object")%string = false \/ b = VNull.
Proof. destruct b; cbn; intros H; auto; discriminate. Qed.

(** C3, counterexample: an array is an object for [typeof], so an array body
    passes the shape test and is read like a record; having no [email]
    property, it is answered with the 400 of the missing email, not with
    500. *)
Lemma C3_array_body_is_answered_400 :
  respond makeSut (VObject [("body", VArray [VString "a@b.com"])])
  = Normal (HttpResponse.badRequest (new MissingParamError (VString "email")))
  /\ statusCode (HttpResponse.badRequest
                   (new MissingParamError (VString "email"))) = 400
  /\ respond makeSut (VObject [("body", VArray [VString "a@b.com"])])
     <> Normal HttpResponse.serverError.
Proof. repeat split; try reflexivity. discriminate. Qed.

(** A request that carries no object as its body is answered 500, whatever
    the collaborators are. *)
Lemma respond_without_object_body (sut : LoginRouter) (httpRequest : value) :
  lacks_object_body httpRequest = true ->
  respond sut httpRequest = Normal HttpResponse.serverError.
Proof.
  unfold lacks_object_body, respond. intros H.
  destruct (get httpRequest "body") as [b|e] eqn:G.
  - apply negb_true_iff in H.
    destruct (not_object_cases b H) as [T | ->].
    + now rewrite (route_body_not_object _ _ b G T).
    + now rewrite (route_body_null _ _ G).
  - now rewrite (route_request_fault _ _ e G).
Qed.

(** C3, amended: for every request that carries no object as its body (the
    request is absent, the body field is absent, or the body is a string, a
    number, a boolean, a function or [null]) [route] answers with status 500
    and a [ServerError] body, whatever the collaborators are. *)
Theorem C3_request_without_object_body (sut : LoginRouter)
    (httpRequest : value) :
  lacks_object_body httpRequest = true ->
  respond sut httpRequest = Normal HttpResponse.serverError
  /\ statusCode HttpResponse.serverError = 500
  /\ body HttpResponse.serverError = Some (new ServerError VUndefined).
Proof.
  intros H. split; [|split; reflexivity].
  now apply respond_without_object_body.
Qed.

Lemma C3_request_without_object_body_witness :
  respond makeSut VUndefined = Normal HttpResponse.serverError
  /\ respond makeSut (VObject [("body", VString "string test")])
     = Normal HttpResponse.serverError
  /\ respond makeSut (VObject [("body", VNull)])
     = Normal HttpResponse.serverError.
Proof.
  split; [|split].
  - exact (proj1 (C3_request_without_object_body makeSut VUndefined
                    eq_refl)).
  - exact (proj1 (C3_request_without_object_body makeSut
                    (VObject [("body", VString "string test")]) eq_refl)).
  - exact (proj1 (C3_request_without_object_body makeSut
                    (VObject [("body", VNull)]) eq_refl)).
Defined.

(** ** A validator that answers with a promise *)

(** C4, counterexample: an [isValid] that returns a promise of [false] is
    not answered like one that returns [false]: the promise is not awaited,
    it is truthy, and the login goes through. *)
Lemma C4_promised_false_differs_from_false :
  respond (constructor (makeAuthUseCase (VString "any_token"))
                       (makeAsyncEmailValidator (Fulfilled (VBoolean false))))
          (credentials (VString "any_email@eu.com") (VString "any_password"))
  <> respond (constructor (makeAuthUseCase (VString "any_token"))
                          (makeEmailValidator (VBoolean false)))
             (credentials (VString "any_email@eu.com")
                          (VString "any_password")).
Proof. discriminate. Qed.

(** C4, amended: [route] tests the value [isValid] returns for truthiness
    without awaiting it.  For every request and every authentication use
    case, a validator that returns a promise (of whatever verdict, fulfilled
    or rejected) gets the same response, and the same calls, as a
    synchronous validator that returns [true]. *)
Theorem C4_promised_verdict_counts_as_true
    (auth : collaborator auth_fn) (verdict : value -> settlement value)
    (httpRequest : value) :
  respond (constructor auth
             (Instance (Method (fun email => Normal (VPromise (verdict email))))))
          httpRequest
  = respond (constructor auth (makeEmailValidator (VBoolean true))) httpRequest
  /\ trace (constructor auth
              (Instance (Method (fun email => Normal (VPromise (verdict email))))))
           httpRequest
     = trace (constructor auth (makeEmailValidator (VBoolean true))) httpRequest.
Proof.
  unfold_route. cbn.
  destruct (get httpRequest "body") as [b|]; cbn; [|split; reflexivity].
  destruct (negb (typeof b =? "object")%string); cbn; [split; reflexivity|].
  destruct (get b "email") as [email|]; cbn; [|split; reflexivity].
  destruct (get b "password") as [password|]; cbn; [|split; reflexivity].
  destruct (negb (truthy email)); cbn; [split; reflexivity|].
  destruct (negb (truthy password)); cbn; [split; reflexivity|].
  unfold bind, ret.
  destruct (callable auth); cbn;
    (destruct (invoke auth _) as [promise|]; cbn; [|split; reflexivity]);
    (destruct (await promise) as [tok|]; cbn; [|split; reflexivity]);
    destruct (negb (truthy tok)); split; reflexivity.
Qed.

(** ** Faults make the calls throw *)

(** A fault of the validator makes the call throw. *)
Lemma validator_fault_throws (email : value) (c : collaborator isValid_fn) :
  validator_fault email c ->
  exists e, invoke c (fun isValid => isValid email) = Throw e.
Proof. intros [ | | | v | isValid e H]; cbn; eauto. Qed.

(** A fault of the authentication use case makes the awaited call throw. *)
Lemma auth_fault_throws (sut : LoginRouter) (email password : value) :
  auth_fault email password (authUseCase sut) ->
  exists e, awaited_auth sut email password = Throw e.
Proof.
  unfold awaited_auth.
  intros F. inversion F as [ | | | v | auth e H | auth promise e H A];
    cbn; eauto.
  - rewrite H. eauto.
  - rewrite H, A. eauto.
Qed.

(** ** The order of the checks *)

(** The checks run in the order body shape, email presence, email syntax,
    password presence, authentication, and the first one that fails decides
    the response and ends the run, whatever the later ones would find.  The
    400 responses are written out: each body is a [MissingParamError]
    around the error object [route] created. *)
Lemma earliest_failing_check_decides (sut : LoginRouter)
    (httpRequest : value) :
  (lacks_object_body httpRequest = true ->
   respond sut httpRequest = Normal HttpResponse.serverError
   /\ trace sut httpRequest = [])
  /\
  (forall props : list (string * value),
      get httpRequest "body" = Normal (VObject props) ->
      (truthy (lookup "email" props) = false ->
       respond sut httpRequest
       = Normal {| statusCode := 400;
                   body := Some (VError MissingParamError
                                   (VError MissingParamError
                                      (VString "email"))) |}
       /\ trace sut httpRequest = [])
      /\
      (truthy (lookup "email" props) = true ->
       validator_fault (lookup "email" props) (emailValidator sut) ->
       respond sut httpRequest = Normal HttpResponse.serverError)
      /\
      (forall (isValid : isValid_fn) (valid : value),
          truthy (lookup "email" props) = true ->
          emailValidator sut = Instance (Method isValid) ->
          isValid (lookup "email" props) = Normal valid ->
          (truthy valid = false ->
           respond sut httpRequest
           = Normal {| statusCode := 400;
                       body := Some (VError MissingParamError
                                       (VError InvalidParamError
                                          (VString "email"))) |}
           /\ trace sut httpRequest = [IsValidCall (lookup "email" props)])
          /\
          (truthy valid = true ->
           truthy (lookup "password" props) = false ->
           respond sut httpRequest
           = Normal {| statusCode := 400;
                       body := Some (VError MissingParamError
                                       (VError MissingParamError
                                          (VString "password"))) |}
           /\ trace sut httpRequest
              = [IsValidCall (lookup "email" props)]))).
Proof.
  split.
  - intros H. split.
    + now apply respond_without_object_body.
    + unfold lacks_object_body, trace in *.
      destruct (get httpRequest "body") as [b|e] eqn:G.
      * apply negb_true_iff in H.
        destruct (not_object_cases b H) as [T | ->].
        -- now rewrite (route_body_not_object _ _ b G T).
        -- now rewrite (route_body_null _ _ G).
      * now rewrite (route_request_fault _ _ e G).
  - intros props G. split; [|split].
    + intros He. unfold_route. rewrite G. cbn. rewrite He. cbn.
      split; reflexivity.
    + intros He F. destruct (validator_fault_throws _ _ F) as [e Hv].
      exact (route_validator_fault httpRequest {| this := sut; calls := [] |}
               props G e He Hv).
    + intros isValid valid He Ev Hv. split.
      * intros Hf. unfold_route. rewrite G. cbn. rewrite He. cbn.
        rewrite Ev. cbn. rewrite Hv. cbn. rewrite Hf. cbn.
        split; reflexivity.
      * intros Ht Hp. unfold_route. rewrite G. cbn. rewrite He. cbn.
        rewrite Ev. cbn. rewrite Hv. cbn. rewrite Ht, Hp. cbn.
        split; reflexivity.
Qed.

(** C5, on the code: the order of the checks is the claimed one, but the
    responses the claim names are not the ones returned.  With an invalid
    email and no password, the email check is the one that answers ([auth]
    is not called and the password is not reported), yet the body is a
    [MissingParamError] around [InvalidParamError('email')], not
    [InvalidParamError('email')].  With an empty email and no authentication
    use case, the email check answers (no 500, no call), yet the body is a
    [MissingParamError] around [MissingParamError('email')], not
    [MissingParamError('email')]. *)
Theorem C5_earliest_check_answers_with_a_wrapped_body :
  (respond (constructor (makeAuthUseCase (VString "any_token"))
                        (makeEmailValidator (VBoolean false)))
           (VObject [("body", VObject [("email", VString "not-an-email")])])
   = Normal {| statusCode := 400;
               body := Some (VError MissingParamError
                               (VError InvalidParamError
                                  (VString "email"))) |}
   /\ respond (constructor (makeAuthUseCase (VString "any_token"))
                           (makeEmailValidator (VBoolean false)))
              (VObject [("body", VObject [("email", VString "not-an-email")])])
      <> Normal {| statusCode := 400;
                   body := Some (new InvalidParamError (VString "email")) |}
   /\ trace (constructor (makeAuthUseCase (VString "any_token"))
                         (makeEmailValidator (VBoolean false)))
            (VObject [("body", VObject [("email", VString "not-an-email")])])
      = [IsValidCall (VString "not-an-email")])
  /\
  (respond (constructor Missing (makeEmailValidator (VBoolean true)))
           (credentials (VString "") (VString "any_password"))
   = Normal {| statusCode := 400;
               body := Some (VError MissingParamError
                               (VError MissingParamError
                                  (VString "email"))) |}
   /\ respond (constructor Missing (makeEmailValidator (VBoolean true)))
              (credentials (VString "") (VString "any_password"))
      <> Normal {| statusCode := 400;
                   body := Some (new MissingParamError (VString "email")) |}
   /\ respond (constructor Missing (makeEmailValidator (VBoolean true)))
              (credentials (VString "") (VString "any_password"))
      <> Normal HttpResponse.serverError
   /\ trace (constructor Missing (makeEmailValidator (VBoolean true)))
            (credentials (VString "") (VString "any_password"))
      = []).
Proof.
  repeat split; try reflexivity; discriminate.
Qed.

(** ** Collaborator faults *)

(** C6, counterexample: a validator whose [isValid] rejects asynchronously
    (it returns a rejected promise) is a collaborator fault that is not
    turned into the 500 response: the promise is never awaited, and the
    login succeeds. *)
Lemma C6_validator_rejection_is_not_a_500 :
  respond (constructor (makeAuthUseCase (VString "any_token"))
             (makeAsyncEmailValidator
                (Rejected (VError PlainError VUndefined))))
          (credentials (VString "any_email@email.com") (VString "123456"))
  = Normal (HttpResponse.success
              [VObject [("accessToken", VString "any_token")]])
  /\ statusCode (HttpResponse.success
                  [VObject [("accessToken", VString "any_token")]]) <> 500.
Proof. split; [reflexivity | discriminate]. Qed.

(** C6, amended: for every request and every pair of collaborators, [route]
    returns a response and throws nothing; and a collaborator fault that the
    run meets is answered with the 500 response: for the validator, once the
    email is present, being absent or [null], lacking [isValid], or raising;
    for the authentication use case, once email and password are present and
    the validator's verdict is truthy, being absent or [null], lacking
    [auth], raising, or rejecting asynchronously. *)
Theorem C6_faults_met_become_server_errors (sut : LoginRouter)
    (httpRequest : value) :
  (exists r : httpResponse, respond sut httpRequest = Normal r)
  /\
  (forall props : list (string * value),
      get httpRequest "body" = Normal (VObject props) ->
      truthy (lookup "email" props) = true ->
      validator_fault (lookup "email" props) (emailValidator sut) ->
      respond sut httpRequest = Normal HttpResponse.serverError)
  /\
  (forall (props : list (string * value)) (valid : value),
      get httpRequest "body" = Normal (VObject props) ->
      truthy (lookup "email" props) = true ->
      invoke (emailValidator sut)
             (fun isValid => isValid (lookup "email" props)) = Normal valid ->
      truthy valid = true ->
      truthy (lookup "password" props) = true ->
      auth_fault (lookup "email" props) (lookup "password" props)
                 (authUseCase sut) ->
      respond sut httpRequest = Normal HttpResponse.serverError).
Proof.
  unfold respond. set (w := {| this := sut; calls := [] |}).
  split; [|split].
  - apply route_returns.
  - intros props Hbody He F.
    destruct (validator_fault_throws _ _ F) as [e Hv].
    exact (route_validator_fault httpRequest w props Hbody e He Hv).
  - intros props valid Hbody He Hv Ht Hp F.
    rewrite (route_authenticates httpRequest w props Hbody valid He Hv Ht Hp).
    destruct (auth_fault_throws sut _ _ F) as [e Ha].
    subst w. cbn [this]. rewrite Ha. reflexivity.
Qed.

Lemma C6_faults_met_become_server_errors_witness :
  (* no validator *)
  respond (constructor (makeAuthUseCase (VString "any_token")) Missing)
          (credentials (VString "any_email@email.com") (VString "123456"))
  = Normal HttpResponse.serverError
  (* an authentication use case that rejects *)
  /\ respond (constructor
                (Instance (Method (fun _ _ =>
                   Normal (VPromise (Rejected (VError PlainError VUndefined))))))
                (makeEmailValidator (VBoolean true)))
             (credentials (VString "any_email@email.com") (VString "123456"))
     = Normal HttpResponse.serverError.
Proof.
  split.
  - refine (proj1 (proj2 (C6_faults_met_become_server_errors
              (constructor (makeAuthUseCase (VString "any_token")) Missing)
              (credentials (VString "any_email@email.com")
                           (VString "123456"))))
              [("email", VString "any_email@email.com");
               ("password", VString "123456")] eq_refl eq_refl _).
    apply validator_absent.
  - refine (proj2 (proj2 (C6_faults_met_become_server_errors
              (constructor
                 (Instance (Method (fun _ _ =>
                    Normal (VPromise (Rejected (VError PlainError VUndefined))))))
                 (makeEmailValidator (VBoolean true)))
              (credentials (VString "any_email@email.com")
                           (VString "123456"))))
              [("email", VString "any_email@email.com");
               ("password", VString "123456")] (VBoolean true)
              eq_refl eq_refl eq_refl eq_refl eq_refl _).
    eapply auth_rejects; reflexivity.
Defined.

(** ** Invalid credentials *)

(** C7: for every request that passes the checks (truthy email, truthy
    verdict of the validator, truthy password), when the awaited call of
    [auth] yields a falsy access token ([undefined], [null], the empty
    string, ...), [route] answers with status 401 and an [UnauthorizedError]
    body, not with the 500 response. *)
Theorem C7_falsy_token_is_unauthorized (sut : LoginRouter)
    (httpRequest : value) (props : list (string * value))
    (valid accessToken : value) :
  get httpRequest "body" = Normal (VObject props) ->
  truthy (lookup "email" props) = true ->
  invoke (emailValidator sut)
         (fun isValid => isValid (lookup "email" props)) = Normal valid ->
  truthy valid = true ->
  truthy (lookup "password" props) = true ->
  awaited_auth sut (lookup "email" props) (lookup "password" props)
  = Normal accessToken ->
  truthy accessToken = false ->
  respond sut httpRequest = Normal HttpResponse.unauthorizedError
  /\ statusCode HttpResponse.unauthorizedError = 401
  /\ body HttpResponse.unauthorizedError
     = Some (new UnauthorizedError VUndefined)
  /\ respond sut httpRequest <> Normal HttpResponse.serverError.
Proof.
  intros Hbody He Hv Ht Hp Ha Hk.
  assert (R : respond sut httpRequest = Normal HttpResponse.unauthorizedError).
  { unfold respond.
    rewrite (route_authenticates httpRequest {| this := sut; calls := [] |}
               props Hbody valid He Hv Ht Hp).
    cbn [this]. rewrite Ha, Hk. reflexivity. }
  rewrite R. repeat split. discriminate.
Qed.

Lemma C7_falsy_token_is_unauthorized_witness :
  respond (constructor (makeAuthUseCase VNull)
                       (makeEmailValidator (VBoolean true)))
          (credentials (VString "invalid_email@email.com")
                       (VString "invalid_password"))
  = Normal HttpResponse.unauthorizedError
  /\ respond (constructor (Instance (Method (fun _ _ => Normal (VString ""))))
                          (makeEmailValidator (VBoolean true)))
             (credentials (VString "invalid_email@email.com")
                          (VString "invalid_password"))
     = Normal HttpResponse.unauthorizedError.
Proof.
  split.
  - exact (proj1 (C7_falsy_token_is_unauthorized
                    (constructor (makeAuthUseCase VNull)
                                 (makeEmailValidator (VBoolean true)))
                    (credentials (VString "invalid_email@email.com")
                                 (VString "invalid_password"))
                    [("email", VString "invalid_email@email.com");
                     ("password", VString "invalid_password")]
                    (VBoolean true) VNull
                    eq_refl eq_refl eq_refl eq_refl eq_refl eq_refl eq_refl)).
  - exact (proj1 (C7_falsy_token_is_unauthorized
                    (constructor
                       (Instance (Method (fun _ _ => Normal (VString ""))))
                       (makeEmailValidator (VBoolean true)))
                    (credentials (VString "invalid_email@email.com")
                                 (VString "invalid_password"))
                    [("email", VString "invalid_email@email.com");
                     ("password", VString "invalid_password")]
                    (VBoolean true) (VString "")
                    eq_refl eq_refl eq_refl eq_refl eq_refl eq_refl eq_refl)).
Defined.

(** ** The missing email *)

(** For every request whose body is a record with a falsy email, [route]
    answers with status 400 and the body [badRequest] builds from
    [new MissingParamError('email')], whatever the other fields and the
    collaborators are. *)
Lemma respond_email_missing (sut : LoginRouter) (httpRequest : value)
    (props : list (string * value)) :
  get httpRequest "body" = Normal (VObject props) ->
  truthy (lookup "email" props) = false ->
  respond sut httpRequest
  = Normal {| statusCode := 400;
              body := Some (VError MissingParamError
                              (VError MissingParamError (VString "email"))) |}.
Proof.
  intros Hbody He. unfold respond.
  now rewrite (route_email_missing httpRequest _ props Hbody He).
Qed.

(** C8, on the code: with body [{ password: 'any_password' }] the status is
    400, as claimed, but the body is not [MissingParamError('email')]: it is
    a [MissingParamError] wrapped around the [MissingParamError('email')]
    object [route] created, because [badRequest] wraps whatever it is
    given. *)
Theorem C8_missing_email_body_is_wrapped_twice :
  respond makeSut
          (VObject [("body", VObject [("password", VString "any_password")])])
  = Normal {| statusCode := 400;
              body := Some (VError MissingParamError
                              (VError MissingParamError (VString "email"))) |}
  /\ respond makeSut
            (VObject [("body", VObject [("password", VString "any_password")])])
     <> Normal {| statusCode := 400;
                  body := Some (new MissingParamError (VString "email")) |}.
Proof. split; [reflexivity | discriminate]. Qed.

(** ** Repeated calls *)

(** C9: calling [route] twice on the same instance with the same request
    (the collaborators being deterministic functions) gives the same
    response both times, and neither call changes a field of the
    instance. *)
Theorem C9_route_is_repeatable (httpRequest : value) (w : world) :
  fst (route httpRequest (snd (route httpRequest w)))
  = fst (route httpRequest w)
  /\ this (snd (route httpRequest w)) = this w
  /\ this (snd (route httpRequest (snd (route httpRequest w)))) = this w.
Proof.
  split; [|split].
  - apply route_response_of_this, route_keeps_this.
  - apply route_keeps_this.
  - now rewrite !route_keeps_this.
Qed.

(** ** What the collaborators receive *)

(** C10: [route] checks the credentials for truthiness only.  For every body
    record whose email and password are truthy values of any type, neither
    presence check fires, [isValid] is called with the email as it is in the
    body, and, when its verdict is truthy, [auth] is called with the email
    and the password as they are in the body; no other call is made.  The
    response is the one that [isValid] applied to that email and [auth]
    applied to that email and that password lead to, for every [isValid]
    and every [auth]. *)
Theorem C10_truthy_credentials_are_forwarded_unchanged (sut : LoginRouter)
    (httpRequest : value) (props : list (string * value))
    (isValid : isValid_fn) (auth : auth_fn) :
  get httpRequest "body" = Normal (VObject props) ->
  truthy (lookup "email" props) = true ->
  truthy (lookup "password" props) = true ->
  emailValidator sut = Instance (Method isValid) ->
  authUseCase sut = Instance (Method auth) ->
  respond sut httpRequest
  <> Normal (HttpResponse.badRequest (new MissingParamError (VString "email")))
  /\ respond sut httpRequest
     <> Normal (HttpResponse.badRequest
                  (new MissingParamError (VString "password")))
  /\ trace sut httpRequest
     = IsValidCall (lookup "email" props)
       :: match isValid (lookup "email" props) with
          | Normal valid =>
              if truthy valid
              then [AuthCall (lookup "email" props) (lookup "password" props)]
              else []
          | Throw _ => []
          end
  /\ respond sut httpRequest
     = Normal
         match isValid (lookup "email" props) with
         | Throw _ => HttpResponse.serverError
         | Normal valid =>
             if truthy valid then
               match auth (lookup "email" props) (lookup "password" props) with
               | Throw _ => HttpResponse.serverError
               | Normal promise =>
                   match await promise with
                   | Throw _ => HttpResponse.serverError
                   | Normal accessToken =>
                       if truthy accessToken
                       then HttpResponse.success
                              [VObject [("accessToken", accessToken)]]
                       else HttpResponse.unauthorizedError
                   end
               end
             else
               HttpResponse.badRequest
                 (new InvalidParamError (VString "email"))
         end.
Proof.
  intros Hbody He Hp Hv Ha. unfold_route. rewrite Hbody. cbn.
  rewrite He. cbn. rewrite Hv. cbn.
  destruct (isValid (lookup "email" props)) as [valid|]; cbn;
    [|repeat split; discriminate].
  destruct (truthy valid); cbn; [|repeat split; discriminate].
  rewrite Hp. cbn. rewrite Ha. cbn.
  destruct (auth _ _) as [promise|]; cbn; [|repeat split; discriminate].
  destruct (await promise) as [tok|]; cbn; [|repeat split; discriminate].
  destruct (truthy tok); cbn; repeat split; discriminate.
Qed.

(** The validator's verdict is the email it was given, and the token is the
    password [auth] was given: a number and a nested object log in. *)
Lemma C10_truthy_credentials_are_forwarded_unchanged_witness :
  trace (constructor
           (Instance (Method (fun _ password =>
                                Normal (VPromise (Fulfilled password)))))
           (Instance (Method (fun email => Normal email))))
        (credentials (VNumber 42) (VObject [("nested", VBoolean false)]))
  = [IsValidCall (VNumber 42);
     AuthCall (VNumber 42) (VObject [("nested", VBoolean false)])]
  /\ respond (constructor
                (Instance (Method (fun _ password =>
                                     Normal (VPromise (Fulfilled password)))))
                (Instance (Method (fun email => Normal email))))
             (credentials (VNumber 42) (VObject [("nested", VBoolean false)]))
     = Normal {| statusCode := 200; body := None |}.
Proof.
  exact (proj2 (proj2 (C10_truthy_credentials_are_forwarded_unchanged
           (constructor
              (Instance (Method (fun _ password =>
                                   Normal (VPromise (Fulfilled password)))))
              (Instance (Method (fun email => Normal email))))
           (credentials (VNumber 42) (VObject [("nested", VBoolean false)]))
           [("email", VNumber 42);
            ("password", VObject [("nested", VBoolean false)])]
           (fun email => Normal email)
           (fun _ password => Normal (VPromise (Fulfilled password)))
           eq_refl eq_refl eq_refl eq_refl eq_refl))).
Defined.

(** ** Every run of [route], classified *)

(** An object that is not [null] passes the shape test, and its properties
    are read without an exception. *)
Lemma object_passes_shape_test (b : value) :
  is_object b = true ->
  (typeof b =? "object")%string = true
  /\ forall k, get b k = Normal (member b k).
Proof. destruct b; cbn; intros H; try discriminate; split; reflexivity. Qed.

(** What happens once the body has passed the shape test. *)
Lemma route_ending (sut : LoginRouter) (httpRequest b : value) :
  get httpRequest "body" = Normal b ->
  is_object b = true ->
  exists r : httpResponse,
    respond sut httpRequest = Normal r
    /\ ending sut b r (trace sut httpRequest).
Proof.
  intros G O. destruct (object_passes_shape_test b O) as [T M].
  unfold_route. rewrite G. cbn. rewrite T. cbn. rewrite !M. cbn.
  destruct (truthy (member b "email")) eqn:He; cbn.
  2:{ eexists; split; [reflexivity | now apply email_missing]. }
  destruct (emailValidator sut) as [ | | [ | v | isValid]] eqn:Ev; cbn;
    try (eexists; split;
         [reflexivity | apply validator_unusable; [assumption | now rewrite Ev]]).
  destruct (isValid (member b "email")) as [valid | e] eqn:Hv; cbn.
  2:{ eexists; split; [reflexivity | now apply (validator_throws sut b isValid e)]. }
  destruct (truthy valid) eqn:Ht; cbn.
  2:{ eexists; split;
      [reflexivity | now apply (email_invalid sut b isValid valid)]. }
  destruct (truthy (member b "password")) eqn:Hp; cbn.
  2:{ eexists; split;
      [reflexivity | now apply (password_missing sut b isValid valid)]. }
  destruct (authUseCase sut) as [ | | [ | v | auth]] eqn:Ea; cbn;
    try (eexists; split;
         [reflexivity
         | apply (auth_unusable sut b isValid valid); try assumption;
           now rewrite Ea]).
  destruct (auth (member b "email") (member b "password"))
    as [promise | e] eqn:Hc; cbn.
  2:{ eexists; split; [reflexivity |].
      apply (auth_fails sut b isValid valid auth e); try assumption.
      unfold awaited_auth. rewrite Ea. cbn. now rewrite Hc. }
  destruct (await promise) as [tok | e] eqn:Hw; cbn.
  2:{ eexists; split; [reflexivity |].
      apply (auth_fails sut b isValid valid auth e); try assumption.
      unfold awaited_auth. rewrite Ea. cbn. now rewrite Hc. }
  assert (A : awaited_auth sut (member b "email") (member b "password")
              = Normal tok).
  { unfold awaited_auth. rewrite Ea. cbn. now rewrite Hc. }
  destruct (truthy tok) eqn:Hk; cbn; eexists; (split; [reflexivity |]).
  - now apply (token_truthy sut b isValid valid auth tok).
  - now apply (token_falsy sut b isValid valid auth tok).
Qed.

(** A request without an object body makes no call. *)
Lemma trace_without_object_body (sut : LoginRouter) (httpRequest : value) :
  lacks_object_body httpRequest = true ->
  trace sut httpRequest = [].
Proof.
  unfold lacks_object_body, trace. intros H.
  destruct (get httpRequest "body") as [b|e] eqn:G.
  - apply negb_true_iff in H.
    destruct (not_object_cases b H) as [T | ->].
    + now rewrite (route_body_not_object _ _ b G T).
    + now rewrite (route_body_null _ _ G).
  - now rewrite (route_request_fault _ _ e G).
Qed.

(** Every request either lacks an object body or carries one. *)
Lemma body_cases (httpRequest : value) :
  lacks_object_body httpRequest = true
  \/ exists b, get httpRequest "body" = Normal b /\ is_object b = true.
Proof.
  unfold lacks_object_body.
  destruct (get httpRequest "body") as [b|e]; [|now left].
  destruct (is_object b) eqn:O; [right; eauto | now left].
Qed.

(** ** What [route] can answer *)

(** X1: whatever the request and the collaborators, [route] resolves to one
    of six responses: the 500 response, the 401 response, the bodiless 200
    response, or the 400 response built from [MissingParamError('email')],
    from [InvalidParamError('email')] or from
    [MissingParamError('password')]; so the status is always 200, 400, 401
    or 500. *)
Theorem route_answers_one_of_six (sut : LoginRouter) (httpRequest : value) :
  exists r : httpResponse,
    respond sut httpRequest = Normal r
    /\ (r = HttpResponse.serverError
        \/ r = HttpResponse.unauthorizedError
        \/ r = {| statusCode := 200; body := None |}
        \/ r = HttpResponse.badRequest
                 (new MissingParamError (VString "email"))
        \/ r = HttpResponse.badRequest
                 (new InvalidParamError (VString "email"))
        \/ r = HttpResponse.badRequest
                 (new MissingParamError (VString "password")))
    /\ (statusCode r = 200 \/ statusCode r = 400
        \/ statusCode r = 401 \/ statusCode r = 500).
Proof.
  destruct (body_cases httpRequest) as [L | (b & G & O)].
  - exists HttpResponse.serverError.
    split; [now apply respond_without_object_body | split; cbn; auto].
  - destruct (route_ending sut httpRequest b G O) as (r & R & E).
    exists r. split; [exact R |].
    destruct E; cbn; split; auto 10.
Qed.

(** X2: a 200 is answered only after a complete login: the body is an
    object with truthy email and password, [isValid] returned a truthy
    verdict for that email, and the awaited [auth] yielded a truthy
    token. *)
Theorem route_200_only_after_authentication (sut : LoginRouter)
    (httpRequest : value) (r : httpResponse) :
  respond sut httpRequest = Normal r ->
  statusCode r = 200 ->
  exists (b : value) (isValid : isValid_fn) (valid accessToken : value),
    get httpRequest "body" = Normal b
    /\ truthy (member b "email") = true
    /\ truthy (member b "password") = true
    /\ emailValidator sut = Instance (Method isValid)
    /\ isValid (member b "email") = Normal valid
    /\ truthy valid = true
    /\ awaited_auth sut (member b "email") (member b "password")
       = Normal accessToken
    /\ truthy accessToken = true.
Proof.
  intros R S.
  destruct (body_cases httpRequest) as [L | (b & G & O)].
  - rewrite (respond_without_object_body sut httpRequest L) in R.
    injection R as <-. discriminate.
  - destruct (route_ending sut httpRequest b G O) as (r' & R' & E).
    rewrite R in R'. injection R' as <-.
    destruct E; cbn in S; try discriminate.
    exists b, isValid, valid, accessToken. auto 10.
Qed.

Lemma route_200_only_after_authentication_witness :
  exists (b : value) (isValid : isValid_fn) (valid accessToken : value),
    get (credentials (VString "a@b.com") (VString "p")) "body" = Normal b
    /\ truthy (member b "email") = true
    /\ truthy (member b "password") = true
    /\ emailValidator makeSut = Instance (Method isValid)
    /\ isValid (member b "email") = Normal valid
    /\ truthy valid = true
    /\ awaited_auth makeSut (member b "email") (member b "password")
       = Normal accessToken
    /\ truthy accessToken = true.
Proof.
  exact (route_200_only_after_authentication makeSut
           (credentials (VString "a@b.com") (VString "p"))
           {| statusCode := 200; body := None |} eq_refl eq_refl).
Defined.

(** ** Which calls [route] makes *)

(** X3: a run calls nothing, or [isValid] once with the body's email, or
    [isValid] once with the body's email and then [auth] once with the
    body's email and password: [auth] is never called without [isValid]
    having been called first, and no method is called twice. *)
Theorem route_call_discipline (sut : LoginRouter) (httpRequest : value) :
  trace sut httpRequest = []
  \/ exists b : value,
       get httpRequest "body" = Normal b
       /\ (trace sut httpRequest = [IsValidCall (member b "email")]
           \/ trace sut httpRequest
              = [IsValidCall (member b "email");
                 AuthCall (member b "email") (member b "password")]).
Proof.
  destruct (body_cases httpRequest) as [L | (b & G & O)].
  - left. now apply trace_without_object_body.
  - destruct (route_ending sut httpRequest b G O) as (r & R & E).
    destruct E; auto; right; exists b; auto.
Qed.

(** X4: [auth] is called only with credentials that passed every check: a
    truthy email, a truthy password, and a truthy verdict of [isValid] on
    that email. *)
Theorem auth_called_only_after_checks (sut : LoginRouter)
    (httpRequest email password : value) :
  In (AuthCall email password) (trace sut httpRequest) ->
  truthy email = true
  /\ truthy password = true
  /\ exists (isValid : isValid_fn) (valid : value),
       emailValidator sut = Instance (Method isValid)
       /\ isValid email = Normal valid
       /\ truthy valid = true.
Proof.
  intros I.
  destruct (body_cases httpRequest) as [L | (b & G & O)].
  - rewrite (trace_without_object_body sut httpRequest L) in I. destruct I.
  - destruct (route_ending sut httpRequest b G O) as (r & R & E).
    destruct E; cbn in I;
      repeat match goal with
             | H : _ \/ _ |- _ => destruct H
             | H : False |- _ => destruct H
             | H : IsValidCall _ = AuthCall _ _ |- _ => discriminate H
             | H : AuthCall _ _ = AuthCall _ _ |- _ =>
                 injection H as <- <-
             end;
      (split; [assumption | split; [assumption | eauto]]).
Qed.

Lemma auth_called_only_after_checks_witness :
  truthy (VString "a@b.com") = true
  /\ truthy (VString "p") = true
  /\ exists (isValid : isValid_fn) (valid : value),
       emailValidator makeSut = Instance (Method isValid)
       /\ isValid (VString "a@b.com") = Normal valid
       /\ truthy valid = true.
Proof.
  apply (auth_called_only_after_checks makeSut
           (credentials (VString "a@b.com") (VString "p"))).
  cbn. right. left. reflexivity.
Defined.

(** X5: a collaborator is called exactly when the body is an object with a
    truthy email and the validator has a callable [isValid]; and whenever
    that is so, [isValid] is called, first, on that email, whatever the
    password and the authentication use case are. *)
Theorem validator_reached_iff (sut : LoginRouter) (httpRequest : value) :
  (trace sut httpRequest <> []
   <-> exists b : value,
         get httpRequest "body" = Normal b
         /\ is_object b = true
         /\ truthy (member b "email") = true
         /\ callable (emailValidator sut) = true)
  /\
  (forall b : value,
      get httpRequest "body" = Normal b ->
      is_object b = true ->
      truthy (member b "email") = true ->
      callable (emailValidator sut) = true ->
      exists later : list call,
        trace sut httpRequest = IsValidCall (member b "email") :: later).
Proof.
  assert (Reached : forall b : value,
             get httpRequest "body" = Normal b ->
             is_object b = true ->
             truthy (member b "email") = true ->
             callable (emailValidator sut) = true ->
             exists later : list call,
               trace sut httpRequest = IsValidCall (member b "email") :: later).
  { intros b G O He Hc.
    destruct (route_ending sut httpRequest b G O) as (r & R & E).
    destruct E; try congruence; eauto. }
  split; [split |]; [ | | exact Reached].
  - intros N.
    destruct (body_cases httpRequest) as [L | (b & G & O)].
    + now rewrite (trace_without_object_body sut httpRequest L) in N.
    + destruct (route_ending sut httpRequest b G O) as (r & R & E).
      exists b.
      destruct E as [ | | isValid ? ? V | isValid ? ? V | isValid ? ? V
                      | isValid ? ? V | isValid ? ? ? ? V
                      | isValid ? ? ? ? V | isValid ? ? ? ? V ];
        try (now destruct N);
        rewrite V; cbn; auto 10.
  - intros (b & G & O & He & Hc) E.
    destruct (Reached b G O He Hc) as [later T].
    rewrite E in T. discriminate.
Qed.

(** A body without password on a router without authentication use case:
    the validator is still called with the email. *)
Lemma validator_reached_iff_witness :
  exists later : list call,
    trace (constructor Missing (makeEmailValidator (VBoolean true)))
          (VObject [("body", VObject [("email", VString "a@b.com")])])
    = IsValidCall (VString "a@b.com") :: later.
Proof.
  exact (proj2 (validator_reached_iff
                  (constructor Missing (makeEmailValidator (VBoolean true)))
                  (VObject [("body", VObject [("email", VString "a@b.com")])]))
               (VObject [("email", VString "a@b.com")])
               eq_refl eq_refl eq_refl eq_refl).
Defined.

(** ** What [route] reads of the request *)

(** X6: of the body, [route] reads the properties [email] and [password]
    and nothing else: two requests whose bodies are records with the same
    email and the same password get the same response from a router, and
    cause the same calls. *)
Theorem route_reads_email_and_password_only (sut : LoginRouter)
    (request1 request2 : value) (props1 props2 : list (string * value)) :
  get request1 "body" = Normal (VObject props1) ->
  get request2 "body" = Normal (VObject props2) ->
  lookup "email" props1 = lookup "email" props2 ->
  lookup "password" props1 = lookup "password" props2 ->
  respond sut request1 = respond sut request2
  /\ trace sut request1 = trace sut request2.
Proof.
  intros G1 G2 Ee Ep. unfold_route. rewrite G1, G2. cbn.
  rewrite Ee, Ep. split; reflexivity.
Qed.

Lemma route_reads_email_and_password_only_witness :
  respond makeSut
    (VObject [("body", VObject [("email", VString "a@b.com");
                                ("password", VString "p");
                                ("remember", VBoolean true)]);
              ("headers", VObject [])])
  = respond makeSut (credentials (VString "a@b.com") (VString "p")).
Proof.
  exact (proj1 (route_reads_email_and_password_only makeSut
           (VObject [("body", VObject [("email", VString "a@b.com");
                                       ("password", VString "p");
                                       ("remember", VBoolean true)]);
                     ("headers", VObject [])])
           (credentials (VString "a@b.com") (VString "p"))
           [("email", VString "a@b.com"); ("password", VString "p");
            ("remember", VBoolean true)]
           [("email", VString "a@b.com"); ("password", VString "p")]
           eq_refl eq_refl eq_refl eq_refl)).
Defined.

(** X7: a body that is an object but no record (an array, an error object,
    a promise) passes the shape test and has neither [email] nor
    [password]: it is answered like a record without email, and no
    collaborator is called. *)
Theorem object_body_without_fields (sut : LoginRouter)
    (httpRequest b : value) :
  get httpRequest "body" = Normal b ->
  is_object b = true ->
  (forall props, b <> VObject props) ->
  respond sut httpRequest
  = Normal (HttpResponse.badRequest (new MissingParamError (VString "email")))
  /\ trace sut httpRequest = [].
Proof.
  intros G O N. unfold_route. rewrite G.
  destruct b; cbn in O; try discriminate; cbn; try (split; reflexivity).
  now destruct (N props).
Qed.

Lemma object_body_without_fields_witness :
  respond makeSut
    (VObject [("body", VArray [VString "a@b.com"; VString "p"])])
  = Normal (HttpResponse.badRequest (new MissingParamError (VString "email")))
  /\ trace makeSut
       (VObject [("body", VArray [VString "a@b.com"; VString "p"])]) = [].
Proof.
  apply (object_body_without_fields makeSut
           (VObject [("body", VArray [VString "a@b.com"; VString "p"])])
           (VArray [VString "a@b.com"; VString "p"]));
    [reflexivity | reflexivity | discriminate].
Defined.

(** ** The revision without email validator *)

(** Its last stage: the awaited call of [auth] and the tests on its
    result. *)
Lemma nv_route_authenticates (sut : LoginRouter) (httpRequest : value)
    (props : list (string * value)) :
  get httpRequest "body" = Normal (VObject props) ->
  truthy (lookup "email" props) = true ->
  truthy (lookup "password" props) = true ->
  NoValidator.respond sut httpRequest
  = Normal
      match awaited_auth sut (lookup "email" props)
                         (lookup "password" props) with
      | Throw _ => HttpResponse.serverError
      | Normal accessToken =>
          if truthy accessToken
          then {| statusCode := 200;
                  body := Some (VObject [("accessToken", accessToken)]) |}
          else HttpResponse.unauthorizedError
      end.
Proof.
  intros G He Hp. unfold_route_nv. unfold awaited_auth. rewrite G. cbn.
  rewrite He, Hp. cbn.
  destruct (callable (authUseCase sut)); cbn;
    destruct (invoke (authUseCase sut) _) as [promise|]; cbn;
    try reflexivity;
    destruct (await promise) as [tok|]; cbn; try reflexivity;
    destruct (truthy tok); reflexivity.
Qed.

(** X8: in the revision without validator, a login whose awaited [auth]
    yields a truthy token T is answered with status 200 and the body
    [{ accessToken: T }]: the router adds the body itself to what
    [HttpResponse.success()] returns. *)
Theorem nv_success_carries_access_token (sut : LoginRouter)
    (httpRequest : value) (props : list (string * value))
    (accessToken : value) :
  get httpRequest "body" = Normal (VObject props) ->
  truthy (lookup "email" props) = true ->
  truthy (lookup "password" props) = true ->
  awaited_auth sut (lookup "email" props) (lookup "password" props)
  = Normal accessToken ->
  truthy accessToken = true ->
  NoValidator.respond sut httpRequest
  = Normal {| statusCode := 200;
              body := Some (VObject [("accessToken", accessToken)]) |}.
Proof.
  intros G He Hp Ha Hk.
  rewrite (nv_route_authenticates sut httpRequest props G He Hp).
  now rewrite Ha, Hk.
Qed.

Lemma nv_success_carries_access_token_witness :
  NoValidator.respond (constructor (makeAuthUseCase (VString "tok123")) Missing)
                      (credentials (VString "a@b.com") (VString "p"))
  = Normal {| statusCode := 200;
              body := Some (VObject [("accessToken", VString "tok123")]) |}.
Proof.
  exact (nv_success_carries_access_token
           (constructor (makeAuthUseCase (VString "tok123")) Missing)
           (credentials (VString "a@b.com") (VString "p"))
           [("email", VString "a@b.com"); ("password", VString "p")]
           (VString "tok123") eq_refl eq_refl eq_refl eq_refl eq_refl).
Defined.

(** X9: in the revision without validator, a record body with a falsy email
    is answered with status 400 and the body [MissingParamError('email')],
    and one with a truthy email and a falsy password with status 400 and the
    body [MissingParamError('password')]; in both cases whatever the
    authentication use case is, which is not called. *)
Theorem nv_missing_field_is_named (sut : LoginRouter) (httpRequest : value)
    (props : list (string * value)) :
  get httpRequest "body" = Normal (VObject props) ->
  (truthy (lookup "email" props) = false ->
   NoValidator.respond sut httpRequest
   = Normal {| statusCode := 400;
               body := Some (VError MissingParamError (VString "email")) |}
   /\ NoValidator.trace sut httpRequest = [])
  /\
  (truthy (lookup "email" props) = true ->
   truthy (lookup "password" props) = false ->
   NoValidator.respond sut httpRequest
   = Normal {| statusCode := 400;
               body := Some (VError MissingParamError (VString "password")) |}
   /\ NoValidator.trace sut httpRequest = []).
Proof.
  intros G. split.
  - intros He. unfold_route_nv. rewrite G. cbn. rewrite He. cbn.
    split; reflexivity.
  - intros He Hp. unfold_route_nv. rewrite G. cbn. rewrite He, Hp. cbn.
    split; reflexivity.
Qed.

Lemma nv_missing_field_is_named_witness :
  NoValidator.respond (constructor Missing Missing)
    (VObject [("body", VObject [("password", VString "any_password")])])
  = Normal {| statusCode := 400;
              body := Some (VError MissingParamError (VString "email")) |}
  /\ NoValidator.respond (constructor Missing Missing)
       (VObject [("body", VObject [("email", VString "any_email@eu.com")])])
     = Normal {| statusCode := 400;
                 body := Some (VError MissingParamError (VString "password")) |}.
Proof.
  split.
  - exact (proj1 (proj1 (nv_missing_field_is_named
             (constructor Missing Missing)
             (VObject [("body", VObject [("password", VString "any_password")])])
             [("password", VString "any_password")] eq_refl) eq_refl)).
  - exact (proj1 (proj2 (nv_missing_field_is_named
             (constructor Missing Missing)
             (VObject [("body", VObject [("email", VString "any_email@eu.com")])])
             [("email", VString "any_email@eu.com")] eq_refl)
             eq_refl eq_refl)).
Defined.

(** X10: in the revision without validator, once email and password are
    present, a fault of the authentication use case (absent, [null], without
    [auth], [auth] raising, [auth] rejecting) is answered with the 500
    response, and a falsy awaited token with the 401 response. *)
Theorem nv_auth_outcomes (sut : LoginRouter) (httpRequest : value)
    (props : list (string * value)) :
  get httpRequest "body" = Normal (VObject props) ->
  truthy (lookup "email" props) = true ->
  truthy (lookup "password" props) = true ->
  (auth_fault (lookup "email" props) (lookup "password" props)
              (authUseCase sut) ->
   NoValidator.respond sut httpRequest = Normal HttpResponse.serverError)
  /\
  (forall accessToken : value,
      awaited_auth sut (lookup "email" props) (lookup "password" props)
      = Normal accessToken ->
      truthy accessToken = false ->
      NoValidator.respond sut httpRequest
      = Normal HttpResponse.unauthorizedError).
Proof.
  intros G He Hp.
  rewrite (nv_route_authenticates sut httpRequest props G He Hp).
  split.
  - intros F. destruct (auth_fault_throws sut _ _ F) as [e Ha].
    now rewrite Ha.
  - intros tok Ha Hk. now rewrite Ha, Hk.
Qed.

Lemma nv_auth_outcomes_witness :
  NoValidator.respond (constructor Missing Missing)
                      (credentials (VString "a@b.com") (VString "p"))
  = Normal HttpResponse.serverError
  /\ NoValidator.respond (constructor (makeAuthUseCase VNull) Missing)
                         (credentials (VString "a@b.com") (VString "p"))
     = Normal HttpResponse.unauthorizedError.
Proof.
  split.
  - refine (proj1 (nv_auth_outcomes (constructor Missing Missing)
              (credentials (VString "a@b.com") (VString "p"))
              [("email", VString "a@b.com"); ("password", VString "p")]
              eq_refl eq_refl eq_refl) _).
    apply auth_absent.
  - exact (proj2 (nv_auth_outcomes (constructor (makeAuthUseCase VNull) Missing)
              (credentials (VString "a@b.com") (VString "p"))
              [("email", VString "a@b.com"); ("password", VString "p")]
              eq_refl eq_refl eq_refl) VNull eq_refl eq_refl).
Defined.

(** X11: the current [route] and the revision without validator answer with
    the same status, for every request and every authentication use case,
    when the validator's [isValid] accepts every email (returns a truthy
    value); what differs is the bodies. *)
Theorem validator_that_accepts_keeps_statuses (auth : collaborator auth_fn)
    (isValid : isValid_fn) (other : collaborator isValid_fn)
    (httpRequest : value) :
  (forall email, exists valid,
        isValid email = Normal valid /\ truthy valid = true) ->
  status_of (respond (constructor auth (Instance (Method isValid)))
                     httpRequest)
  = status_of (NoValidator.respond (constructor auth other) httpRequest).
Proof.
  intros A. unfold_route. unfold_route_nv. unfold constructor. cbn.
  destruct (get httpRequest "body") as [b|]; cbn; [|reflexivity].
  destruct (negb (typeof b =? "object")%string); cbn; [reflexivity|].
  destruct (get b "email") as [email|]; cbn; [|reflexivity].
  destruct (get b "password") as [password|]; cbn; [|reflexivity].
  destruct (negb (truthy email)); cbn; [reflexivity|].
  destruct (A email) as (valid & -> & ->). cbn.
  destruct (negb (truthy password)); cbn; [reflexivity|].
  unfold bind, ret.
  destruct (callable auth); cbn;
    (destruct (invoke auth _) as [promise|]; cbn; [|reflexivity]);
    (destruct (await promise) as [tok|]; cbn; [|reflexivity]);
    destruct (negb (truthy tok)); reflexivity.
Qed.

Lemma validator_that_accepts_keeps_statuses_witness :
  status_of (respond makeSut (credentials (VString "a@b.com") (VString "")))
  = status_of (NoValidator.respond
                 (constructor (makeAuthUseCase (VString "any_token")) Missing)
                 (credentials (VString "a@b.com") (VString ""))).
Proof.
  apply (validator_that_accepts_keeps_statuses
           (makeAuthUseCase (VString "any_token"))
           (fun _ => Normal (VBoolean true)) Missing
           (credentials (VString "a@b.com") (VString ""))).
  intros email. exists (VBoolean true). split; reflexivity.
Defined.

(** ** The synchronous revision *)

(** X12: the synchronous revision does not await [auth]: when [auth]
    returns a promise, a request with truthy email and password is answered
    with status 200 and that promise as the access token, whether the
    promise is fulfilled (with a token or with nothing) or rejected. *)
Theorem sync_promise_counts_as_token (sut : LoginRouter)
    (httpRequest : value) (props : list (string * value)) (auth : auth_fn)
    (p : settlement value) :
  get httpRequest "body" = Normal (VObject props) ->
  truthy (lookup "email" props) = true ->
  truthy (lookup "password" props) = true ->
  authUseCase sut = Instance (Method auth) ->
  auth (lookup "email" props) (lookup "password" props)
  = Normal (VPromise p) ->
  Synchronous.respond sut httpRequest
  = Normal {| statusCode := 200;
              body := Some (VObject [("accessToken", VPromise p)]) |}.
Proof.
  intros G He Hp Ha Hc. unfold_route_sync. rewrite G. cbn.
  rewrite He, Hp. cbn. rewrite Ha. cbn. rewrite Hc. reflexivity.
Qed.

Lemma sync_promise_counts_as_token_witness :
  Synchronous.respond (constructor (makeAuthUseCase VNull) Missing)
                      (credentials (VString "a@b.com") (VString "p"))
  = Normal {| statusCode := 200;
              body := Some (VObject [("accessToken",
                                      VPromise (Fulfilled VNull))]) |}.
Proof.
  exact (sync_promise_counts_as_token
           (constructor (makeAuthUseCase VNull) Missing)
           (credentials (VString "a@b.com") (VString "p"))
           [("email", VString "a@b.com"); ("password", VString "p")]
           (fun _ _ => Normal (VPromise (Fulfilled VNull)))
           (Fulfilled VNull) eq_refl eq_refl eq_refl eq_refl eq_refl).
Defined.

(** For an object, [await] looks at the property [then]. *)
Lemma await_object (props : list (string * value)) :
  await (VObject props)
  = match lookup "then" props with
    | VFunction _ (Fulfilled y) => await y
    | VFunction _ (Rejected e) => Throw e
    | _ => Normal (VObject props)
    end.
Proof.
  assert (H : forall (v : value) (l : list (string * value)),
             (fix adopt (l : list (string * value)) : completion value :=
                match l with
                | [] => Normal v
                | (k, x) :: rest =>
                    if ("then" =? k)%string then
                      match x with
                      | VFunction _ (Fulfilled y) => await y
                      | VFunction _ (Rejected e) => Throw e
                      | _ => Normal v
                      end
                    else adopt rest
                end) l
             = match lookup "then" l with
               | VFunction _ (Fulfilled y) => await y
               | VFunction _ (Rejected e) => Throw e
               | _ => Normal v
               end).
  { intros v l. induction l as [ | [k x] rest IH]; [reflexivity |].
    cbn [lookup]. destruct ("then" =? k)%string; [| exact IH].
    destruct x; reflexivity. }
  exact (H (VObject props) props).
Qed.

(** Awaiting a value that is neither a promise nor a thenable gives the
    value. *)
Lemma await_not_thenable (v : value) :
  thenable v = false -> await v = Normal v.
Proof.
  destruct v; try reflexivity; try discriminate.
  intros T. rewrite await_object. cbn in T.
  destruct (lookup "then" props); try reflexivity; discriminate.
Qed.

(** X13: when [auth] never returns a promise or a thenable (an object with a
    [then] method), the synchronous revision and the asynchronous revision
    without validator give the same response and make the same calls, for
    every request. *)
Theorem sync_agrees_without_promises (sut : LoginRouter)
    (httpRequest : value) :
  (forall (auth : auth_fn) (email password v : value),
      authUseCase sut = Instance (Method auth) ->
      auth email password = Normal v ->
      thenable v = false) ->
  Synchronous.respond sut httpRequest = NoValidator.respond sut httpRequest
  /\ Synchronous.trace sut httpRequest = NoValidator.trace sut httpRequest.
Proof.
  intros N. unfold_route_sync. unfold_route_nv.
  destruct (get httpRequest "body") as [b|]; cbn; [|split; reflexivity].
  destruct (negb (typeof b =? "object")%string); cbn; [split; reflexivity|].
  destruct (get b "email") as [email|]; cbn; [|split; reflexivity].
  destruct (get b "password") as [password|]; cbn; [|split; reflexivity].
  destruct (negb (truthy email)); cbn; [split; reflexivity|].
  destruct (negb (truthy password)); cbn; [split; reflexivity|].
  destruct (authUseCase sut) as [ | | [ | v | auth]] eqn:Ea; cbn;
    try (split; reflexivity).
  destruct (auth email password) as [v|] eqn:Hc; cbn; [|split; reflexivity].
  rewrite (await_not_thenable v (N auth email password v eq_refl Hc)).
  cbn. destruct (negb (truthy v)); split; reflexivity.
Qed.

Lemma sync_agrees_without_promises_witness :
  Synchronous.respond
    (constructor (Instance (Method (fun _ _ => Normal (VString "tok")))) Missing)
    (credentials (VString "a@b.com") (VString "p"))
  = NoValidator.respond
      (constructor (Instance (Method (fun _ _ => Normal (VString "tok")))) Missing)
      (credentials (VString "a@b.com") (VString "p")).
Proof.
  apply (sync_agrees_without_promises
           (constructor (Instance (Method (fun _ _ => Normal (VString "tok"))))
                        Missing)
           (credentials (VString "a@b.com") (VString "p"))).
  intros auth email password v E H. cbn in E. injection E as <-.
  injection H as <-. reflexivity.
Defined.

(** With a thenable the two revisions part: the synchronous one takes the
    object for the token, the asynchronous one awaits what its [then]
    resolves with. *)
Example sync_and_async_part_at_a_thenable :
  Synchronous.respond
    (constructor
       (Instance (Method (fun _ _ =>
          Normal (VObject [("then", VFunction "then" (Fulfilled VNull))]))))
       Missing)
    (credentials (VString "a@b.com") (VString "p"))
  = Normal {| statusCode := 200;
              body := Some (VObject
                        [("accessToken",
                          VObject [("then",
                                    VFunction "then" (Fulfilled VNull))])]) |}
  /\ NoValidator.respond
       (constructor
          (Instance (Method (fun _ _ =>
             Normal (VObject [("then", VFunction "then" (Fulfilled VNull))]))))
          Missing)
       (credentials (VString "a@b.com") (VString "p"))
     = Normal HttpResponse.unauthorizedError.
Proof. split; reflexivity. Qed.

(** ** The authentication use case *)

(** X14: [AuthUseCase.auth] never throws at its caller and never yields a
    token: it returns a promise that is rejected exactly when the email is
    falsy or the password is truthy, and is otherwise fulfilled with
    [undefined]. *)
Theorem AuthUseCase_auth_outcome (email password : value) :
  (exists p, AuthUseCase.auth email password = Normal (VPromise p))
  /\ ((exists e,
          awaited_auth (constructor AuthUseCase.instance Missing)
                       email password = Throw e)
      <-> truthy email = false \/ truthy password = true)
  /\ (truthy email = true /\ truthy password = false ->
      awaited_auth (constructor AuthUseCase.instance Missing) email password
      = Normal VUndefined).
Proof.
  unfold awaited_auth, AuthUseCase.instance, AuthUseCase.auth. cbn.
  split; [eauto |].
  destruct (truthy email), (truthy password); cbn; split;
    try (split; [intros [e H]; try discriminate; auto
                | intros [H|H]; try discriminate; eauto]);
    try (intros [H1 H2]; try discriminate; reflexivity).
Qed.

Lemma AuthUseCase_auth_outcome_witness :
  awaited_auth (constructor AuthUseCase.instance Missing)
               (VString "a@b.com") VUndefined
  = Normal VUndefined
  /\ exists e,
       awaited_auth (constructor AuthUseCase.instance Missing)
                    (VString "a@b.com") (VString "p") = Throw e.
Proof.
  split.
  - exact (proj2 (proj2 (AuthUseCase_auth_outcome (VString "a@b.com")
                           VUndefined)) (conj eq_refl eq_refl)).
  - exact (proj2 (proj1 (proj2 (AuthUseCase_auth_outcome (VString "a@b.com")
                                  (VString "p"))))
                 (or_intror eq_refl)).
Defined.

(** X15: a router (current revision) wired to [AuthUseCase] never lets
    anyone in: whatever the request and the validator, the status is 400 or
    500, never 200 and never 401, because [auth] rejects every call that has
    a password. *)
Theorem router_with_AuthUseCase_never_logs_in
    (validator : collaborator isValid_fn) (httpRequest : value) :
  status_of (respond (constructor AuthUseCase.instance validator) httpRequest)
  = Some 400
  \/ status_of (respond (constructor AuthUseCase.instance validator)
                        httpRequest)
     = Some 500.
Proof.
  set (sut := constructor AuthUseCase.instance validator).
  destruct (body_cases httpRequest) as [L | (b & G & O)].
  - right. now rewrite (respond_without_object_body sut httpRequest L).
  - destruct (route_ending sut httpRequest b G O) as (r & -> & E).
    destruct E as [ | | | | | | | ? ? ? tok ? ? ? ? Hp ? Ha
                    | ? ? ? tok ? ? ? ? Hp ? Ha ]; cbn; auto;
      exfalso; unfold awaited_auth in Ha; cbn in Ha;
      unfold AuthUseCase.auth in Ha; rewrite Hp, orb_true_r in Ha;
      discriminate.
Qed.

(** X16: the revision without validator wired to [AuthUseCase] answers every
    request that has a truthy email and a truthy password with the 500
    response. *)
Theorem nv_router_with_AuthUseCase_fails (other : collaborator isValid_fn)
    (httpRequest : value) (props : list (string * value)) :
  get httpRequest "body" = Normal (VObject props) ->
  truthy (lookup "email" props) = true ->
  truthy (lookup "password" props) = true ->
  NoValidator.respond (constructor AuthUseCase.instance other) httpRequest
  = Normal HttpResponse.serverError.
Proof.
  intros G He Hp.
  rewrite (nv_route_authenticates _ httpRequest props G He Hp).
  unfold awaited_auth. cbn. unfold AuthUseCase.auth.
  now rewrite Hp, orb_true_r.
Qed.

Lemma nv_router_with_AuthUseCase_fails_witness :
  NoValidator.respond (constructor AuthUseCase.instance Missing)
                      (credentials (VString "a@b.com") (VString "p"))
  = Normal HttpResponse.serverError.
Proof.
  exact (nv_router_with_AuthUseCase_fails Missing
           (credentials (VString "a@b.com") (VString "p"))
           [("email", VString "a@b.com"); ("password", VString "p")]
           eq_refl eq_refl eq_refl).
Defined.

(** ** The intermediate revision *)

(** X17: the intermediate revision and the revision that names the field
    make the same calls and answer with the same status for every request,
    and with the same response whenever that status is not 400; they differ
    only in what the body of a 400 carries. *)
Theorem intermediate_differs_in_400_bodies_only (sut : LoginRouter)
    (httpRequest : value) :
  Intermediate.trace sut httpRequest = NoValidator.trace sut httpRequest
  /\ status_of (Intermediate.respond sut httpRequest)
     = status_of (NoValidator.respond sut httpRequest)
  /\ (status_of (NoValidator.respond sut httpRequest) <> Some 400 ->
      Intermediate.respond sut httpRequest
      = NoValidator.respond sut httpRequest).
Proof.
  unfold_route_mid. unfold_route_nv.
  destruct (get httpRequest "body") as [b|]; cbn; [|auto].
  destruct (negb (typeof b =? "object")%string); cbn; [auto|].
  destruct (get b "email") as [email|]; cbn; [|auto].
  destruct (get b "password") as [password|]; cbn; [|auto].
  destruct (negb (truthy email)); cbn.
  { repeat split. intros N. now destruct N. }
  destruct (negb (truthy password)); cbn.
  { repeat split. intros N. now destruct N. }
  auto.
Qed.

Lemma intermediate_differs_in_400_bodies_only_witness :
  Intermediate.respond (constructor (makeAuthUseCase VNull) Missing)
                       (credentials (VString "a@b.com") (VString "p"))
  = NoValidator.respond (constructor (makeAuthUseCase VNull) Missing)
                        (credentials (VString "a@b.com") (VString "p")).
Proof.
  apply (proj2 (proj2 (intermediate_differs_in_400_bodies_only
           (constructor (makeAuthUseCase VNull) Missing)
           (credentials (VString "a@b.com") (VString "p"))))).
  cbn. discriminate.
Defined.
